(** * Tableau-to-Looker converter: domain models and the parsing entrypoint

    A shallow embedding of
    - [domain/tableau_semantic.py]: the pydantic classes of the semantic model,
    - [domain/lookml_project.py]: the generated LookML project,
    - [domain/qa_report.py]: the report of the QA step,
    - [services/parser_service.py]: [parse_twb_to_semantic_model].

    A pydantic class is embedded as a record (one module per class, the field
    names of the source), a validation function from plain Python data to the
    record, and the dump back to plain data. *)

From Stdlib Require Import ZArith Floats.SpecFloat.
From stdpp Require Import gmap strings list fin_maps.

Set Warnings "-register-all".

(** ** Python data *)

(** A Python [float] is an IEEE 754 binary64 number. *)
Definition float : Type := spec_float.

(** [0.0], [1.0], [2.0] and [-1.0] *)
Definition float_zero : float := S754_zero false.
Definition float_one : float := S754_finite false 4503599627370496 (-52).
Definition float_two : float := S754_finite false 4503599627370496 (-51).
Definition float_minus_one : float := S754_finite true 4503599627370496 (-52).

(** Plain data as it is handed to a pydantic constructor: the keyword
    arguments of a constructor call are a [dict] from [str] to values. *)
Inductive PyVal : Type :=
| PyNone
| PyBool (b : bool)
| PyInt (z : Z)
| PyFloat (f : float)
| PyStr (s : string)
| PyList (l : list PyVal)
| PyDict (d : gmap string PyVal).

Abbreviation kwargs := (gmap string PyVal).

(** ** Exceptions *)

Inductive Exn : Type :=
| ValidationError
| AttributeError
| AdapterError (name : string).

Inductive Result (A : Type) : Type :=
| Ok (a : A)
| Raise (e : Exn).
Arguments Ok {A} a.
Arguments Raise {A} e.

Definition is_ok {A} (r : Result A) : bool :=
  match r with Ok _ => true | Raise _ => false end.

Definition rbind {A B} (r : Result A) (k : A -> Result B) : Result B :=
  match r with
  | Ok a => k a
  | Raise e => Raise e
  end.

Definition rmap {A B} (f : A -> B) (r : Result A) : Result B :=
  rbind r (fun a => Ok (f a)).

Declare Scope result_scope.
Delimit Scope result_scope with result.
Notation "x <~ r ; k" := (rbind r (fun x => k))
  (at level 100, r at next level, right associativity) : result_scope.
Open Scope result_scope.

Fixpoint traverse {A B} (f : A -> Result B) (l : list A) : Result (list B) :=
  match l with
  | [] => Ok []
  | a :: l' => b <~ f a; bs <~ traverse f l'; Ok (b :: bs)
  end.

(** ** pydantic: field types

    Every class of the two domain files derives from [BaseModel] with the
    default configuration and declares no validator of its own, so an
    instance is built field by field from the annotations alone (as
    pydantic 2 does it, under which a field may be called [schema]). A value
    is taken at the Python type its annotation names, a nested model as the
    [dict] of its fields; keys that name no field are ignored. The
    conversions that pydantic's lax mode applies to values of other Python
    types (an [int] or a numeric [str] for a [float], [0] and [1] for a
    [bool]) are left out: such input is rejected here. *)

Definition as_str (v : PyVal) : Result string :=
  match v with PyStr s => Ok s | _ => Raise ValidationError end.

Definition as_bool (v : PyVal) : Result bool :=
  match v with PyBool b => Ok b | _ => Raise ValidationError end.

Definition as_float (v : PyVal) : Result float :=
  match v with PyFloat f => Ok f | _ => Raise ValidationError end.

(** [Optional[T]] *)
Definition as_optional {A} (f : PyVal -> Result A) (v : PyVal) : Result (option A) :=
  match v with PyNone => Ok None | _ => rmap Some (f v) end.

(** [List[T]] *)
Definition as_list {A} (f : PyVal -> Result A) (v : PyVal) : Result (list A) :=
  match v with PyList l => traverse f l | _ => Raise ValidationError end.

(** [Literal["a", "b", ...]]: the members in the order of the declaration,
    each with the string it stands for. *)
Class Literal (E : Type) : Type := {
  members : list E;
  str : E -> string
}.

Definition declared (E : Type) `{Literal E} : list string := map str members.

Definition of_str {E} `{Literal E} (s : string) : option E :=
  find (fun e => String.eqb (str e) s) members.

Definition as_literal {E} `{Literal E} (v : PyVal) : Result E :=
  match v with
  | PyStr s => match of_str s with Some e => Ok e | None => Raise ValidationError end
  | _ => Raise ValidationError
  end.

(** A field without a default: [name: T]. *)
Definition required {A} (f : PyVal -> Result A) (k : string) (d : kwargs) : Result A :=
  match d !! k with
  | Some v => f v
  | None => Raise ValidationError
  end.

(** A field with a default: [name: T = dflt]; the default is taken as it is. *)
Definition defaulted {A} (f : PyVal -> Result A) (dflt : A) (k : string) (d : kwargs)
  : Result A :=
  match d !! k with
  | Some v => f v
  | None => Ok dflt
  end.

(** A pydantic class: construction from keyword arguments and the dump of
    an instance to plain data. *)
Class BaseModel (A : Type) : Type := {
  init : kwargs -> Result A;
  dump_fields : A -> list (string * PyVal)
}.

Definition model_dump {A} `{BaseModel A} (a : A) : PyVal :=
  PyDict (list_to_map (dump_fields a)).

Definition model_validate {A} `{BaseModel A} (v : PyVal) : Result A :=
  match v with PyDict d => init d | _ => Raise ValidationError end.

(** Dumping an instance and validating the dump gives the instance back. *)
Class Roundtrip (A : Type) `{BaseModel A} : Prop :=
  validate_dump : forall a : A, model_validate (model_dump a) = Ok a.

Definition dump_optional {A} (f : A -> PyVal) (o : option A) : PyVal :=
  match o with Some a => f a | None => PyNone end.

Definition dump_list {A} (f : A -> PyVal) (l : list A) : PyVal := PyList (map f l).

Definition dump_literal {E} `{Literal E} (e : E) : PyVal := PyStr (str e).

(** ** domain/tableau_semantic.py: the enumerations *)

Module ConnectionType.
Inductive t : Type := table | custom_sql | extract | unknown.
#[global] Instance literal : Literal t := {|
  members := [table; custom_sql; extract; unknown];
  str e := match e with
           | table => "table" | custom_sql => "custom_sql"
           | extract => "extract" | unknown => "unknown"
           end
|}.
End ConnectionType.

Module JoinType.
Inductive t : Type := inner | left | right | full | unknown.
#[global] Instance literal : Literal t := {|
  members := [inner; left; right; full; unknown];
  str e := match e with
           | inner => "inner" | left => "left" | right => "right"
           | full => "full" | unknown => "unknown"
           end
|}.
End JoinType.

Module Role.
Inductive t : Type := dimension | measure | unknown.
#[global] Instance literal : Literal t := {|
  members := [dimension; measure; unknown];
  str e := match e with
           | dimension => "dimension" | measure => "measure" | unknown => "unknown"
           end
|}.
End Role.

Module Datatype.
Inductive t : Type := string_ | number | date | datetime | boolean | unknown.
#[global] Instance literal : Literal t := {|
  members := [string_; number; date; datetime; boolean; unknown];
  str e := match e with
           | string_ => "string" | number => "number" | date => "date"
           | datetime => "datetime" | boolean => "boolean" | unknown => "unknown"
           end
|}.
End Datatype.

Module Source.
Inductive t : Type := column | calculation | parameter | unknown.
#[global] Instance literal : Literal t := {|
  members := [column; calculation; parameter; unknown];
  str e := match e with
           | column => "column" | calculation => "calculation"
           | parameter => "parameter" | unknown => "unknown"
           end
|}.
End Source.

Module Category.
Inductive t : Type := simple | lod | table_calc | parameter_based | unknown.
#[global] Instance literal : Literal t := {|
  members := [simple; lod; table_calc; parameter_based; unknown];
  str e := match e with
           | simple => "simple" | lod => "lod" | table_calc => "table_calc"
           | parameter_based => "parameter_based" | unknown => "unknown"
           end
|}.
End Category.

Module AppliedTo.
Inductive t : Type := rows | columns | table | unknown.
#[global] Instance literal : Literal t := {|
  members := [rows; columns; table; unknown];
  str e := match e with
           | rows => "rows" | columns => "columns" | table => "table"
           | unknown => "unknown"
           end
|}.
End AppliedTo.

Module ChartType.
Inductive t : Type :=
  table | bar | line | area | scatter | pie | single_value | unknown.
#[global] Instance literal : Literal t := {|
  members := [table; bar; line; area; scatter; pie; single_value; unknown];
  str e := match e with
           | table => "table" | bar => "bar" | line => "line" | area => "area"
           | scatter => "scatter" | pie => "pie"
           | single_value => "single_value" | unknown => "unknown"
           end
|}.
End ChartType.

(** ** domain/tableau_semantic.py: the classes *)

Module TableauWorkbook.
Record t : Type := mk {
  id : string;
  name : string;
  description : option string
}.
#[global] Instance base_model : BaseModel t := {|
  init d :=
    id <~ required as_str "id" d;
    name <~ required as_str "name" d;
    description <~ defaulted (as_optional as_str) None "description" d;
    Ok (mk id name description);
  dump_fields x :=
    [("id", PyStr (id x)); ("name", PyStr (name x));
     ("description", dump_optional PyStr (description x))]
|}.
End TableauWorkbook.

Module TableauConnection.
Record t : Type := mk {
  type : ConnectionType.t;
  dialect : option string;
  database : option string;
  schema : option string;
  table : option string;
  raw_sql : option string
}.
#[global] Instance base_model : BaseModel t := {|
  init d :=
    type <~ defaulted as_literal ConnectionType.unknown "type" d;
    dialect <~ defaulted (as_optional as_str) None "dialect" d;
    database <~ defaulted (as_optional as_str) None "database" d;
    schema <~ defaulted (as_optional as_str) None "schema" d;
    table <~ defaulted (as_optional as_str) None "table" d;
    raw_sql <~ defaulted (as_optional as_str) None "raw_sql" d;
    Ok (mk type dialect database schema table raw_sql);
  dump_fields x :=
    [("type", dump_literal (type x));
     ("dialect", dump_optional PyStr (dialect x));
     ("database", dump_optional PyStr (database x));
     ("schema", dump_optional PyStr (schema x));
     ("table", dump_optional PyStr (table x));
     ("raw_sql", dump_optional PyStr (raw_sql x))]
|}.
End TableauConnection.

Module TableauTable.
Record t : Type := mk {
  id : string;
  name : string;
  database : option string;
  schema : option string;
  table : option string;
  is_primary : bool
}.
#[global] Instance base_model : BaseModel t := {|
  init d :=
    id <~ required as_str "id" d;
    name <~ required as_str "name" d;
    database <~ defaulted (as_optional as_str) None "database" d;
    schema <~ defaulted (as_optional as_str) None "schema" d;
    table <~ defaulted (as_optional as_str) None "table" d;
    is_primary <~ defaulted as_bool false "is_primary" d;
    Ok (mk id name database schema table is_primary);
  dump_fields x :=
    [("id", PyStr (id x)); ("name", PyStr (name x));
     ("database", dump_optional PyStr (database x));
     ("schema", dump_optional PyStr (schema x));
     ("table", dump_optional PyStr (table x));
     ("is_primary", PyBool (is_primary x))]
|}.
End TableauTable.

Module TableauJoin.
Record t : Type := mk {
  id : string;
  left_table_id : string;
  right_table_id : string;
  join_type : JoinType.t;
  condition : string;
  needs_manual_review : bool
}.
#[global] Instance base_model : BaseModel t := {|
  init d :=
    id <~ required as_str "id" d;
    left_table_id <~ required as_str "left_table_id" d;
    right_table_id <~ required as_str "right_table_id" d;
    join_type <~ defaulted as_literal JoinType.unknown "join_type" d;
    condition <~ required as_str "condition" d;
    needs_manual_review <~ defaulted as_bool false "needs_manual_review" d;
    Ok (mk id left_table_id right_table_id join_type condition needs_manual_review);
  dump_fields x :=
    [("id", PyStr (id x));
     ("left_table_id", PyStr (left_table_id x));
     ("right_table_id", PyStr (right_table_id x));
     ("join_type", dump_literal (join_type x));
     ("condition", PyStr (condition x));
     ("needs_manual_review", PyBool (needs_manual_review x))]
|}.
End TableauJoin.

Module TableauField.
Record t : Type := mk {
  id : string;
  name : string;
  caption : option string;
  table_id : option string;
  role : Role.t;
  datatype : Datatype.t;
  aggregation : option string;
  source : Source.t;
  column_name : option string;
  calculation_id : option string;
  is_hidden : bool;
  tags : list string
}.
#[global] Instance base_model : BaseModel t := {|
  init d :=
    id <~ required as_str "id" d;
    name <~ required as_str "name" d;
    caption <~ defaulted (as_optional as_str) None "caption" d;
    table_id <~ defaulted (as_optional as_str) None "table_id" d;
    role <~ defaulted as_literal Role.unknown "role" d;
    datatype <~ defaulted as_literal Datatype.unknown "datatype" d;
    aggregation <~ defaulted (as_optional as_str) None "aggregation" d;
    source <~ defaulted as_literal Source.unknown "source" d;
    column_name <~ defaulted (as_optional as_str) None "column_name" d;
    calculation_id <~ defaulted (as_optional as_str) None "calculation_id" d;
    is_hidden <~ defaulted as_bool false "is_hidden" d;
    tags <~ defaulted (as_list as_str) [] "tags" d;
    Ok (mk id name caption table_id role datatype aggregation source
           column_name calculation_id is_hidden tags);
  dump_fields x :=
    [("id", PyStr (id x)); ("name", PyStr (name x));
     ("caption", dump_optional PyStr (caption x));
     ("table_id", dump_optional PyStr (table_id x));
     ("role", dump_literal (role x));
     ("datatype", dump_literal (datatype x));
     ("aggregation", dump_optional PyStr (aggregation x));
     ("source", dump_literal (source x));
     ("column_name", dump_optional PyStr (column_name x));
     ("calculation_id", dump_optional PyStr (calculation_id x));
     ("is_hidden", PyBool (is_hidden x));
     ("tags", dump_list PyStr (tags x))]
|}.
End TableauField.

Module TableauCalculation.
Record t : Type := mk {
  id : string;
  name : string;
  datasource_id : string;
  expression : string;
  datatype : Datatype.t;
  category : Category.t;
  complexity_score : float
}.
#[global] Instance base_model : BaseModel t := {|
  init d :=
    id <~ required as_str "id" d;
    name <~ required as_str "name" d;
    datasource_id <~ required as_str "datasource_id" d;
    expression <~ required as_str "expression" d;
    datatype <~ defaulted as_literal Datatype.unknown "datatype" d;
    category <~ defaulted as_literal Category.unknown "category" d;
    complexity_score <~ defaulted as_float float_zero "complexity_score" d;
    Ok (mk id name datasource_id expression datatype category complexity_score);
  dump_fields x :=
    [("id", PyStr (id x)); ("name", PyStr (name x));
     ("datasource_id", PyStr (datasource_id x));
     ("expression", PyStr (expression x));
     ("datatype", dump_literal (datatype x));
     ("category", dump_literal (category x));
     ("complexity_score", PyFloat (complexity_score x))]
|}.
End TableauCalculation.

Module TableauSheetFilter.
Record t : Type := mk {
  field_id : string;
  expression : string;
  applied_to : AppliedTo.t
}.
#[global] Instance base_model : BaseModel t := {|
  init d :=
    field_id <~ required as_str "field_id" d;
    expression <~ required as_str "expression" d;
    applied_to <~ defaulted as_literal AppliedTo.unknown "applied_to" d;
    Ok (mk field_id expression applied_to);
  dump_fields x :=
    [("field_id", PyStr (field_id x));
     ("expression", PyStr (expression x));
     ("applied_to", dump_literal (applied_to x))]
|}.
End TableauSheetFilter.

Module TableauSheetVisualization.
Record t : Type := mk {
  chart_type : ChartType.t;
  primary_dimension_id : option string;
  primary_measure_ids : list string;
  split_by_dimension_ids : list string;
  sort_order : option string;
  granularity : option string
}.
#[global] Instance base_model : BaseModel t := {|
  init d :=
    chart_type <~ defaulted as_literal ChartType.unknown "chart_type" d;
    primary_dimension_id <~
      defaulted (as_optional as_str) None "primary_dimension_id" d;
    primary_measure_ids <~ defaulted (as_list as_str) [] "primary_measure_ids" d;
    split_by_dimension_ids <~
      defaulted (as_list as_str) [] "split_by_dimension_ids" d;
    sort_order <~ defaulted (as_optional as_str) None "sort_order" d;
    granularity <~ defaulted (as_optional as_str) None "granularity" d;
    Ok (mk chart_type primary_dimension_id primary_measure_ids
           split_by_dimension_ids sort_order granularity);
  dump_fields x :=
    [("chart_type", dump_literal (chart_type x));
     ("primary_dimension_id", dump_optional PyStr (primary_dimension_id x));
     ("primary_measure_ids", dump_list PyStr (primary_measure_ids x));
     ("split_by_dimension_ids", dump_list PyStr (split_by_dimension_ids x));
     ("sort_order", dump_optional PyStr (sort_order x));
     ("granularity", dump_optional PyStr (granularity x))]
|}.
End TableauSheetVisualization.

Module TableauSheet.
Record t : Type := mk {
  id : string;
  name : string;
  datasource_id : string;
  used_field_ids : list string;
  filters : list TableauSheetFilter.t;
  visualization : option TableauSheetVisualization.t;
  description : option string
}.
#[global] Instance base_model : BaseModel t := {|
  init d :=
    id <~ required as_str "id" d;
    name <~ required as_str "name" d;
    datasource_id <~ required as_str "datasource_id" d;
    used_field_ids <~ defaulted (as_list as_str) [] "used_field_ids" d;
    filters <~ defaulted (as_list model_validate) [] "filters" d;
    visualization <~
      defaulted (as_optional model_validate) None "visualization" d;
    description <~ defaulted (as_optional as_str) None "description" d;
    Ok (mk id name datasource_id used_field_ids filters visualization description);
  dump_fields x :=
    [("id", PyStr (id x)); ("name", PyStr (name x));
     ("datasource_id", PyStr (datasource_id x));
     ("used_field_ids", dump_list PyStr (used_field_ids x));
     ("filters", dump_list model_dump (filters x));
     ("visualization", dump_optional model_dump (visualization x));
     ("description", dump_optional PyStr (description x))]
|}.
End TableauSheet.

Module TableauDatasource.
Record t : Type := mk {
  id : string;
  name : string;
  connection : TableauConnection.t;
  tables : list TableauTable.t;
  joins : list TableauJoin.t;
  fields : list TableauField.t
}.
#[global] Instance base_model : BaseModel t := {|
  init d :=
    id <~ required as_str "id" d;
    name <~ required as_str "name" d;
    connection <~ required model_validate "connection" d;
    tables <~ defaulted (as_list model_validate) [] "tables" d;
    joins <~ defaulted (as_list model_validate) [] "joins" d;
    fields <~ defaulted (as_list model_validate) [] "fields" d;
    Ok (mk id name connection tables joins fields);
  dump_fields x :=
    [("id", PyStr (id x)); ("name", PyStr (name x));
     ("connection", model_dump (connection x));
     ("tables", dump_list model_dump (tables x));
     ("joins", dump_list model_dump (joins x));
     ("fields", dump_list model_dump (fields x))]
|}.
End TableauDatasource.

(** The top-level model. [workbook] is declared [TableauWorkbook], without
    a default, so construction demands one; the attribute of an instance is
    a slot that [parse_twb_to_semantic_model] tests against [None] and
    assigns to, hence its type here. *)
Module TableauSemanticModel.
Record t : Type := mk {
  schema_version : string;
  workbook : option TableauWorkbook.t;
  datasources : list TableauDatasource.t;
  calculations : list TableauCalculation.t;
  sheets : list TableauSheet.t
}.
#[global] Instance base_model : BaseModel t := {|
  init d :=
    schema_version <~ defaulted as_str "1.0" "schema_version" d;
    workbook <~ required model_validate "workbook" d;
    datasources <~ defaulted (as_list model_validate) [] "datasources" d;
    calculations <~ defaulted (as_list model_validate) [] "calculations" d;
    sheets <~ defaulted (as_list model_validate) [] "sheets" d;
    Ok (mk schema_version (Some workbook) datasources calculations sheets);
  dump_fields x :=
    [("schema_version", PyStr (schema_version x));
     ("workbook", dump_optional model_dump (workbook x));
     ("datasources", dump_list model_dump (datasources x));
     ("calculations", dump_list model_dump (calculations x));
     ("sheets", dump_list model_dump (sheets x))]
|}.
End TableauSemanticModel.

(** ** domain/lookml_project.py *)

Module LookMLFile.
Record t : Type := mk { filename : string; content : string }.
#[global] Instance base_model : BaseModel t := {|
  init d :=
    filename <~ required as_str "filename" d;
    content <~ required as_str "content" d;
    Ok (mk filename content);
  dump_fields x := [("filename", PyStr (filename x)); ("content", PyStr (content x))]
|}.
End LookMLFile.

Module LookMLProject.
Record t : Type := mk {
  model_files : list LookMLFile.t;
  view_files : list LookMLFile.t;
  dashboard_files : list LookMLFile.t
}.
#[global] Instance base_model : BaseModel t := {|
  init d :=
    model_files <~ required (as_list model_validate) "model_files" d;
    view_files <~ required (as_list model_validate) "view_files" d;
    dashboard_files <~ required (as_list model_validate) "dashboard_files" d;
    Ok (mk model_files view_files dashboard_files);
  dump_fields x :=
    [("model_files", dump_list model_dump (model_files x));
     ("view_files", dump_list model_dump (view_files x));
     ("dashboard_files", dump_list model_dump (dashboard_files x))]
|}.

(** [return self.model_files + self.view_files + self.dashboard_files] *)
Definition all_files (self : t) : list LookMLFile.t :=
  (model_files self ++ view_files self) ++ dashboard_files self.
End LookMLProject.

(** ** domain/qa_report.py *)

Definition as_int (v : PyVal) : Result Z :=
  match v with PyInt z => Ok z | _ => Raise ValidationError end.

Definition ok_value {A} (r : Result A) : option A :=
  match r with Ok a => Some a | Raise _ => None end.

(** [Dict[str, T]]: every value of the dict has to be a [T]. *)
Definition as_dict {A} (f : PyVal -> Result A) (v : PyVal) : Result (gmap string A) :=
  match v with
  | PyDict d =>
      if decide (map_Forall (fun _ x => is_ok (f x) = true) d)
      then Ok (omap (fun x => ok_value (f x)) d)
      else Raise ValidationError
  | _ => Raise ValidationError
  end.

Definition dump_dict {A} (f : A -> PyVal) (m : gmap string A) : PyVal :=
  PyDict (f <$> m).

Module DashboardSummary.
Record t : Type := mk {
  total_sheets : Z;
  dashboards_created : Z;
  tiles_created : Z;
  tiles_by_type : gmap string Z
}.
#[global] Instance base_model : BaseModel t := {|
  init d :=
    total_sheets <~ required as_int "total_sheets" d;
    dashboards_created <~ required as_int "dashboards_created" d;
    tiles_created <~ required as_int "tiles_created" d;
    tiles_by_type <~ defaulted (as_dict as_int) ∅ "tiles_by_type" d;
    Ok (mk total_sheets dashboards_created tiles_created tiles_by_type);
  dump_fields x :=
    [("total_sheets", PyInt (total_sheets x));
     ("dashboards_created", PyInt (dashboards_created x));
     ("tiles_created", PyInt (tiles_created x));
     ("tiles_by_type", dump_dict PyInt (tiles_by_type x))]
|}.
End DashboardSummary.

Module QAReport.
Record t : Type := mk {
  manual_intervention_required : bool;
  reasons : list string;
  dashboard_summary : option DashboardSummary.t;
  notes : option string
}.
#[global] Instance base_model : BaseModel t := {|
  init d :=
    manual_intervention_required <~
      required as_bool "manual_intervention_required" d;
    reasons <~ defaulted (as_list as_str) [] "reasons" d;
    dashboard_summary <~
      defaulted (as_optional model_validate) None "dashboard_summary" d;
    notes <~ defaulted (as_optional as_str) None "notes" d;
    Ok (mk manual_intervention_required reasons dashboard_summary notes);
  dump_fields x :=
    [("manual_intervention_required", PyBool (manual_intervention_required x));
     ("reasons", dump_list PyStr (reasons x));
     ("dashboard_summary", dump_optional model_dump (dashboard_summary x));
     ("notes", dump_optional PyStr (notes x))]
|}.
End QAReport.

(** ** services/parser_service.py

    The two functions of [adapters.twb_xml_parser] that the entrypoint calls
    are not part of the sources; they are parameters of this section. A
    Python function may read and write the interpreter state and may raise,
    and a model instance is an object that is assigned to in place: a
    computation takes the state, made of the heap of model instances and of
    everything else ([globals]), and returns a result or an exception
    together with the new state. *)

Definition loc : Type := nat.

Record PyState (G : Type) : Type := mkState {
  heap : gmap loc TableauSemanticModel.t;
  globals : G
}.
Arguments mkState {G} heap globals.
Arguments heap {G} _.
Arguments globals {G} _.

Definition M (G A : Type) : Type := PyState G -> Result A * PyState G.

Definition ret {G A} (a : A) : M G A := fun st => (Ok a, st).

Definition bind {G A B} (c : M G A) (k : A -> M G B) : M G B :=
  fun st =>
    match c st with
    | (Ok a, st') => k a st'
    | (Raise e, st') => (Raise e, st')
    end.

Definition lift {G A} (r : Result A) : M G A := fun st => (r, st).

Declare Scope py_scope.
Delimit Scope py_scope with py.
Notation "x <- c ;; k" := (bind c (fun x => k))
  (at level 100, c at next level, right associativity) : py_scope.
Notation "c ;; k" := (bind c (fun _ => k))
  (at level 100, right associativity) : py_scope.

(** A new instance gets an address that is not in use. *)
Definition alloc {G} (m : TableauSemanticModel.t) : M G loc :=
  fun st =>
    let l := fresh (dom (heap st)) in
    (Ok l, mkState (<[l := m]> (heap st)) (globals st)).

(** [obj.workbook]; an address that holds no instance, which Python code
    cannot produce, is an error. *)
Definition get_workbook {G} (obj : loc) : M G (option TableauWorkbook.t) :=
  fun st =>
    match heap st !! obj with
    | Some m => (Ok (TableauSemanticModel.workbook m), st)
    | None => (Raise AttributeError, st)
    end.

Definition with_workbook (w : option TableauWorkbook.t) (m : TableauSemanticModel.t)
  : TableauSemanticModel.t :=
  TableauSemanticModel.mk
    (TableauSemanticModel.schema_version m) w
    (TableauSemanticModel.datasources m)
    (TableauSemanticModel.calculations m)
    (TableauSemanticModel.sheets m).

(** [obj.workbook = w]: the default configuration neither freezes an
    instance nor validates an assignment. *)
Definition set_workbook {G} (obj : loc) (w : option TableauWorkbook.t) : M G unit :=
  fun st =>
    match heap st !! obj with
    | Some m => (Ok tt, mkState (<[obj := with_workbook w m]> (heap st)) (globals st))
    | None => (Raise AttributeError, st)
    end.

Section parser_service.
Context {G : Type}.
Variable parse_twb_xml_to_raw_spec : list Byte.byte -> M G kwargs.
Variable raw_spec_to_semantic_model : kwargs -> M G loc.

Definition parse_twb_to_semantic_model (twb_bytes : list Byte.byte) : M G loc :=
  (raw_spec <- parse_twb_xml_to_raw_spec twb_bytes ;;
   semantic_model <- raw_spec_to_semantic_model raw_spec ;;
   workbook <- get_workbook semantic_model ;;
   match workbook with
   | None =>
       placeholder <- lift (init (A := TableauWorkbook.t)
                              (list_to_map [("id", PyStr "unknown");
                                            ("name", PyStr "Unknown Workbook");
                                            ("description", PyNone)])) ;;
       set_workbook semantic_model (Some placeholder) ;;
       ret semantic_model
   | Some _ => ret semantic_model
   end)%py.

End parser_service.

(** ** The invariants of the specification, as decidable predicates *)

Definition mem (s : string) (l : list string) : bool :=
  existsb (String.eqb s) l.

(** A field whose source is a calculation names, by [calculation_id], a
    calculation of the model that belongs to the field's datasource. *)
Definition field_resolves (m : TableauSemanticModel.t) (ds : TableauDatasource.t)
  (f : TableauField.t) : bool :=
  match TableauField.source f with
  | Source.calculation =>
      match TableauField.calculation_id f with
      | Some c =>
          existsb (fun k => String.eqb (TableauCalculation.id k) c
                            && String.eqb (TableauCalculation.datasource_id k)
                                          (TableauDatasource.id ds))
                  (TableauSemanticModel.calculations m)
      | None => false
      end
  | _ => true
  end.

(** Both ends of a join are tables of the join's datasource. *)
Definition join_resolves (ds : TableauDatasource.t) (j : TableauJoin.t) : bool :=
  let table_ids := map TableauTable.id (TableauDatasource.tables ds) in
  mem (TableauJoin.left_table_id j) table_ids
  && mem (TableauJoin.right_table_id j) table_ids.

Definition datasource_resolves (m : TableauSemanticModel.t) (ds : TableauDatasource.t)
  : bool :=
  forallb (field_resolves m ds) (TableauDatasource.fields ds)
  && forallb (join_resolves ds) (TableauDatasource.joins ds).

(** The ids of the fields of the datasource a sheet names. *)
Definition sheet_field_ids (m : TableauSemanticModel.t) (sh : TableauSheet.t)
  : list string :=
  flat_map (fun ds => map TableauField.id (TableauDatasource.fields ds))
    (filter (fun ds => TableauDatasource.id ds = TableauSheet.datasource_id sh)
            (TableauSemanticModel.datasources m)).

Definition visualization_refs (v : TableauSheetVisualization.t) : list string :=
  match TableauSheetVisualization.primary_dimension_id v with
  | Some i => [i]
  | None => []
  end
  ++ TableauSheetVisualization.primary_measure_ids v
  ++ TableauSheetVisualization.split_by_dimension_ids v.

(** Every filter and every visualization reference of a sheet is a field
    of the sheet's datasource. *)
Definition sheet_resolves (m : TableauSemanticModel.t) (sh : TableauSheet.t) : bool :=
  let ids := sheet_field_ids m sh in
  forallb (fun flt => mem (TableauSheetFilter.field_id flt) ids)
          (TableauSheet.filters sh)
  && match TableauSheet.visualization sh with
     | Some v => forallb (fun i => mem i ids) (visualization_refs v)
     | None => true
     end.

Definition no_dangling_ids (m : TableauSemanticModel.t) : bool :=
  forallb (datasource_resolves m) (TableauSemanticModel.datasources m)
  && forallb (sheet_resolves m) (TableauSemanticModel.sheets m).

(** [0.0 <= f <= 1.0] *)
Definition in_unit_interval (f : float) : bool :=
  SFleb float_zero f && SFleb f float_one.

(** [TableauWorkbook(id="unknown", name="Unknown Workbook", description=None)] *)
Definition placeholder_workbook : TableauWorkbook.t :=
  TableauWorkbook.mk "unknown" "Unknown Workbook" None.

(** The first value a list of items gives for a key. *)
Fixpoint assoc (k : string) (l : list (string * PyVal)) : option PyVal :=
  match l with
  | [] => None
  | (k', v) :: l' => if String.eqb k' k then Some v else assoc k l'
  end.

(** ** Sample inputs *)

Definition py_dict (l : list (string * PyVal)) : PyVal := PyDict (list_to_map l).

(** A workbook whose only field is backed by a calculation it does not name,
    in a model without calculations. *)
Definition dangling_kwargs : kwargs :=
  list_to_map
    [("workbook", py_dict [("id", PyStr "wb1"); ("name", PyStr "Sales")]);
     ("datasources",
      PyList
        [py_dict
           [("id", PyStr "ds1"); ("name", PyStr "orders");
            ("connection", py_dict []);
            ("fields",
             PyList [py_dict [("id", PyStr "f1"); ("name", PyStr "ratio");
                              ("source", PyStr "calculation")]])]])].

Definition dangling_model : TableauSemanticModel.t :=
  TableauSemanticModel.mk "1.0"
    (Some (TableauWorkbook.mk "wb1" "Sales" None))
    [TableauDatasource.mk "ds1" "orders"
       (TableauConnection.mk ConnectionType.unknown None None None None None)
       [] []
       [TableauField.mk "f1" "ratio" None None Role.unknown Datatype.unknown None
          Source.calculation None None false []]]
    [] [].

Definition calculation_kwargs (score : PyVal) : kwargs :=
  list_to_map
    [("id", PyStr "c1"); ("name", PyStr "amount"); ("datasource_id", PyStr "ds1");
     ("expression", PyStr "[amount]"); ("complexity_score", score)].

Definition join_kwargs (extra : list (string * PyVal)) : kwargs :=
  list_to_map
    ([("id", PyStr "j1"); ("left_table_id", PyStr "orders");
      ("right_table_id", PyStr "line_items");
      ("condition", PyStr "[orders.id] = [line_items.order_id]")] ++ extra).

(** The condition that equates a column of one table with a column of
    another, as Tableau writes it. *)
Definition column_equality (left_table left_column right_table right_column : string)
  : string :=
  "[" ++ left_table ++ "." ++ left_column ++ "] = ["
  ++ right_table ++ "." ++ right_column ++ "]".

(** The datasource has a field backed by the given column of the given
    table. *)
Definition has_column (ds : TableauDatasource.t) (table column : string) : bool :=
  existsb
    (fun f =>
       match TableauField.source f, TableauField.table_id f,
             TableauField.column_name f with
       | Source.column, Some t, Some c => String.eqb t table && String.eqb c column
       | _, _, _ => false
       end)
    (TableauDatasource.fields ds).

(** A datasource with the tables [orders] and [line_items], a field for the
    column [id] of the one and for the column [order_id] of the other, and
    the join of the two tables on these columns, flagged for review. *)
Definition column_field_kwargs (id table column : string) : PyVal :=
  py_dict [("id", PyStr id); ("name", PyStr column); ("table_id", PyStr table);
           ("source", PyStr "column"); ("column_name", PyStr column)].

Definition reviewed_join_kwargs : kwargs :=
  list_to_map
    [("id", PyStr "ds1"); ("name", PyStr "sales"); ("connection", py_dict []);
     ("tables",
      PyList [py_dict [("id", PyStr "orders"); ("name", PyStr "orders")];
              py_dict [("id", PyStr "line_items"); ("name", PyStr "line_items")]]);
     ("joins", PyList [PyDict (join_kwargs [("needs_manual_review", PyBool true)])]);
     ("fields",
      PyList [column_field_kwargs "f1" "orders" "id";
              column_field_kwargs "f2" "line_items" "order_id"])].

Definition reviewed_join : TableauJoin.t :=
  TableauJoin.mk "j1" "orders" "line_items" JoinType.unknown
    (column_equality "orders" "id" "line_items" "order_id") true.

Definition reviewed_join_datasource : TableauDatasource.t :=
  TableauDatasource.mk "ds1" "sales"
    (TableauConnection.mk ConnectionType.unknown None None None None None)
    [TableauTable.mk "orders" "orders" None None None false;
     TableauTable.mk "line_items" "line_items" None None None false]
    [reviewed_join]
    [TableauField.mk "f1" "id" None (Some "orders") Role.unknown Datatype.unknown
       None Source.column (Some "id") None false [];
     TableauField.mk "f2" "order_id" None (Some "line_items") Role.unknown
       Datatype.unknown None Source.column (Some "order_id") None false []].

Definition field_kwargs (extra : list (string * PyVal)) : kwargs :=
  list_to_map ([("id", PyStr "f1"); ("name", PyStr "order_id")] ++ extra).

(** A reader and an assembler to run the entrypoint with: the reader fails
    on an empty document and otherwise finds a workbook node only in a
    document that starts with the byte [x01]; the assembler calls the class
    constructor when the raw spec has a workbook, and otherwise fills the
    instance without validation, its workbook left [None]. *)
Definition sample_raw_spec : kwargs :=
  list_to_map [("workbook", py_dict [("id", PyStr "wb1"); ("name", PyStr "Sales")])].

Definition sample_model (w : option TableauWorkbook.t) : TableauSemanticModel.t :=
  TableauSemanticModel.mk "1.0" w [] [] [].

Definition sample_reader {G} (b : list Byte.byte) : M G kwargs :=
  match b with
  | [] => lift (Raise (AdapterError "MalformedDocumentError"))
  | Byte.x01 :: _ => ret sample_raw_spec
  | _ => ret ∅
  end.

Definition sample_assembler {G} (raw : kwargs) : M G loc :=
  match raw !! "workbook" with
  | Some _ => (m <- lift (init (A := TableauSemanticModel.t) raw) ;; alloc m)%py
  | None => alloc (sample_model None)
  end.

Definition empty_state : PyState unit := mkState ∅ tt.

(** A state in which an earlier run has left its instance. *)
Definition later_state : PyState unit := mkState {[0 := dangling_model]} tt.

(** A project of one model file, no view file and two dashboard files. *)
Definition file_kwargs (filename content : string) : PyVal :=
  py_dict [("filename", PyStr filename); ("content", PyStr content)].

Definition project_kwargs : kwargs :=
  list_to_map
    [("model_files", PyList [file_kwargs "sales.model.lkml" "connection: sales"]);
     ("view_files", PyList []);
     ("dashboard_files",
      PyList [file_kwargs "orders.dashboard.lkml" "- dashboard: orders";
              file_kwargs "returns.dashboard.lkml" "- dashboard: returns"])].

Definition sample_project : LookMLProject.t :=
  LookMLProject.mk
    [LookMLFile.mk "sales.model.lkml" "connection: sales"]
    []
    [LookMLFile.mk "orders.dashboard.lkml" "- dashboard: orders";
     LookMLFile.mk "returns.dashboard.lkml" "- dashboard: returns"].

(** A dashboard summary with the given histogram of tiles. *)
Definition summary_kwargs (tiles_by_type : PyVal) : kwargs :=
  list_to_map
    [("total_sheets", PyInt 3); ("dashboards_created", PyInt 1);
     ("tiles_created", PyInt 3); ("tiles_by_type", tiles_by_type)].

(** * Lemmas on the field types *)

Lemma rbind_Ok {A B} (r : Result A) (k : A -> Result B) (b : B) :
  rbind r k = Ok b -> exists a, r = Ok a /\ k a = Ok b.
Proof. destruct r as [a|e]; [|done]. intros Hk. by exists a. Qed.

Section literal.
Context {E : Type} `{Literal E}.

Lemma of_str_Some (s : string) (e : E) :
  of_str s = Some e -> str e = s /\ In e members.
Proof.
  unfold of_str. intros Hf. apply find_some in Hf as [Hin Heq].
  by apply String.eqb_eq in Heq.
Qed.

Lemma of_str_None (s : string) : of_str (E := E) s = None -> ~ In s (declared E).
Proof.
  unfold of_str, declared. intros Hf Hin. apply in_map_iff in Hin as (e & He & Hin).
  pose proof (find_none _ _ Hf e Hin) as Hne. cbn in Hne.
  rewrite He, String.eqb_refl in Hne. discriminate.
Qed.

Lemma of_str_declared (s : string) :
  In s (declared E) <-> is_Some (of_str (E := E) s).
Proof.
  split.
  - intros Hin. destruct (of_str s) eqn:Hf; [by eexists|].
    by apply of_str_None in Hf.
  - intros [e He]. apply of_str_Some in He as [<- Hin]. by apply in_map.
Qed.

Lemma as_literal_undeclared (s : string) :
  ~ In s (declared E) -> as_literal (E := E) (PyStr s) = Raise ValidationError.
Proof.
  intros Hs. cbn. destruct (of_str s) as [e|] eqn:He; [|done].
  destruct Hs. apply of_str_declared. by eexists.
Qed.

Lemma as_literal_dump (e : E) :
  of_str (str e) = Some e -> as_literal (dump_literal e) = Ok e.
Proof. cbn. by intros ->. Qed.
End literal.

Lemma traverse_map {A B} (f : A -> Result B) (g : B -> A) (l : list B) :
  (forall b, f (g b) = Ok b) -> traverse f (map g l) = Ok l.
Proof.
  intros Hfg. induction l as [|b l IH]; [done|].
  cbn. by rewrite Hfg, IH.
Qed.

Lemma as_list_dump {A} (f : PyVal -> Result A) (g : A -> PyVal) (l : list A) :
  (forall a, f (g a) = Ok a) -> as_list f (dump_list g l) = Ok l.
Proof. apply traverse_map. Qed.

Lemma as_optional_dump {A} (f : PyVal -> Result A) (g : A -> PyVal) (o : option A) :
  (forall a, f (g a) = Ok a) -> (forall a, g a <> PyNone) ->
  as_optional f (dump_optional g o) = Ok o.
Proof.
  intros Hfg Hg. destruct o as [a|]; [|done]. cbn.
  specialize (Hfg a). specialize (Hg a).
  destruct (g a); try done; cbn; by rewrite Hfg.
Qed.

Lemma as_optional_str (o : option string) :
  as_optional as_str (dump_optional PyStr o) = Ok o.
Proof. by destruct o. Qed.

Lemma as_list_str (l : list string) : as_list as_str (dump_list PyStr l) = Ok l.
Proof. by apply as_list_dump. Qed.

Lemma as_str_Ok (v : PyVal) (s : string) : as_str v = Ok s -> v = PyStr s.
Proof. destruct v; cbn; congruence. Qed.

Lemma validate_dump_opt {A} `{Roundtrip A} (o : option A) :
  as_optional model_validate (dump_optional model_dump o) = Ok o.
Proof. apply as_optional_dump; [apply validate_dump | done]. Qed.

Lemma validate_dump_list {A} `{Roundtrip A} (l : list A) :
  as_list model_validate (dump_list model_dump l) = Ok l.
Proof. apply as_list_dump, validate_dump. Qed.

(** Looking a key up in the dict of a list of items. *)
Lemma lookup_fields (l : list (string * PyVal)) (k : string) :
  (list_to_map l : kwargs) !! k = assoc k l.
Proof.
  induction l as [|[k' v] l IH]; [done|]. cbn [list_to_map foldr assoc curry fst snd].
  rewrite lookup_insert. case_decide as Hk.
  - subst. by rewrite String.eqb_refl.
  - apply String.eqb_neq in Hk. by rewrite Hk.
Qed.

Section field_lookup.
Context {A : Type} (f : PyVal -> Result A) (dflt : A).
Implicit Types (k : string) (d : kwargs).

Lemma required_insert_ne k k' v d :
  k <> k' -> required f k' (<[k := v]> d) = required f k' d.
Proof. intros Hk. unfold required. by rewrite lookup_insert_ne. Qed.

Lemma required_delete_ne k k' d :
  k <> k' -> required f k' (delete k d) = required f k' d.
Proof. intros Hk. unfold required. by rewrite lookup_delete_ne. Qed.

Lemma required_Ok k d a :
  required f k d = Ok a -> exists v, d !! k = Some v /\ f v = Ok a.
Proof. unfold required. destruct (d !! k) as [v|]; [|done]. by exists v. Qed.

Lemma defaulted_insert_eq k v d : defaulted f dflt k (<[k := v]> d) = f v.
Proof. unfold defaulted. by rewrite lookup_insert_eq. Qed.

Lemma defaulted_insert_ne k k' v d :
  k <> k' -> defaulted f dflt k' (<[k := v]> d) = defaulted f dflt k' d.
Proof. intros Hk. unfold defaulted. by rewrite lookup_insert_ne. Qed.

Lemma defaulted_delete_eq k d : defaulted f dflt k (delete k d) = Ok dflt.
Proof. unfold defaulted. by rewrite lookup_delete_eq. Qed.

Lemma defaulted_delete_ne k k' d :
  k <> k' -> defaulted f dflt k' (delete k d) = defaulted f dflt k' d.
Proof. intros Hk. unfold defaulted. by rewrite lookup_delete_ne. Qed.

Lemma defaulted_None k d : d !! k = None -> defaulted f dflt k d = Ok dflt.
Proof. unfold defaulted. by intros ->. Qed.

Lemma defaulted_Some k v d : d !! k = Some v -> defaulted f dflt k d = f v.
Proof. unfold defaulted. by intros ->. Qed.
End field_lookup.

(** ** Proof steps shared by the classes *)

Ltac unfold_models :=
  unfold model_validate, model_dump;
  cbn [init dump_fields
       TableauWorkbook.base_model TableauConnection.base_model
       TableauTable.base_model TableauJoin.base_model TableauField.base_model
       TableauCalculation.base_model TableauSheetFilter.base_model
       TableauSheetVisualization.base_model TableauSheet.base_model
       TableauDatasource.base_model TableauSemanticModel.base_model
       LookMLFile.base_model LookMLProject.base_model].

Ltac lookup_keys :=
  unfold required, defaulted;
  rewrite ?lookup_fields; cbn [assoc String.eqb Ascii.eqb Bool.eqb].

Ltac literals :=
  repeat match goal with
    | |- context [as_literal (dump_literal ?e)] =>
        rewrite (as_literal_dump e) by (destruct e; reflexivity)
    end.

Ltac roundtrip :=
  unfold_models; lookup_keys;
  rewrite ?as_optional_str, ?as_list_str, ?validate_dump_opt, ?validate_dump_list;
  literals;
  cbn [rbind as_str as_bool as_float]; try reflexivity.

(** [init d = Ok x] gives one equation per field. *)
Ltac inv_bind H :=
  let a := fresh "a" in
  let Ha := fresh "Ha" in
  apply rbind_Ok in H; destruct H as (a & Ha & H).

Ltac inv_init H :=
  unfold model_validate in H;
  cbn [init
       TableauWorkbook.base_model TableauConnection.base_model
       TableauTable.base_model TableauJoin.base_model TableauField.base_model
       TableauCalculation.base_model TableauSheetFilter.base_model
       TableauSheetVisualization.base_model TableauSheet.base_model
       TableauDatasource.base_model TableauSemanticModel.base_model] in H;
  repeat inv_bind H; injection H as H.

(** The fields that an update of one key leaves alone. *)
Ltac other_keys :=
  rewrite ?required_insert_ne, ?defaulted_insert_ne,
          ?required_delete_ne, ?defaulted_delete_ne by done.

Ltac use_fields :=
  repeat match goal with
    | H : ?r = Ok _ |- context [?r] => rewrite H
    end;
  cbn [rbind].

(** The field of key [k], absent from the arguments, has its default. *)
Ltac default_of k :=
  match goal with
  | Hk : _ !! k = None, Hf : defaulted _ _ k _ = Ok _ |- _ =>
      rewrite (defaulted_None _ _ _ _ Hk) in Hf; injection Hf as <-
  end.

(** A constructor call fails as soon as one field fails. *)
Ltac first_failure :=
  cbn [rbind];
  repeat match goal with
    | |- is_ok (Raise _) = false => reflexivity
    | |- is_ok (rbind ?r _) = false => destruct r; cbn [rbind]
    end.

(** ** Dump and validation *)

#[global] Instance TableauWorkbook_roundtrip : Roundtrip TableauWorkbook.t.
Proof. intros []. roundtrip. Qed.

#[global] Instance TableauConnection_roundtrip : Roundtrip TableauConnection.t.
Proof. intros []. roundtrip. Qed.

#[global] Instance TableauTable_roundtrip : Roundtrip TableauTable.t.
Proof. intros []. roundtrip. Qed.

#[global] Instance TableauJoin_roundtrip : Roundtrip TableauJoin.t.
Proof. intros []. roundtrip. Qed.

#[global] Instance TableauField_roundtrip : Roundtrip TableauField.t.
Proof. intros []. roundtrip. Qed.

#[global] Instance TableauCalculation_roundtrip : Roundtrip TableauCalculation.t.
Proof. intros []. roundtrip. Qed.

#[global] Instance TableauSheetFilter_roundtrip : Roundtrip TableauSheetFilter.t.
Proof. intros []. roundtrip. Qed.

#[global] Instance TableauSheetVisualization_roundtrip :
  Roundtrip TableauSheetVisualization.t.
Proof. intros []. roundtrip. Qed.

#[global] Instance TableauSheet_roundtrip : Roundtrip TableauSheet.t.
Proof. intros []. roundtrip. Qed.

#[global] Instance TableauDatasource_roundtrip : Roundtrip TableauDatasource.t.
Proof.
  intros []. roundtrip.
  change (init (list_to_map (dump_fields connection)))
    with (model_validate (model_dump connection)).
  rewrite validate_dump. reflexivity.
Qed.

#[global] Instance LookMLFile_roundtrip : Roundtrip LookMLFile.t.
Proof. intros []. roundtrip. Qed.

#[global] Instance LookMLProject_roundtrip : Roundtrip LookMLProject.t.
Proof. intros []. roundtrip. Qed.

Lemma TableauSemanticModel_roundtrip (m : TableauSemanticModel.t) :
  is_Some (TableauSemanticModel.workbook m) ->
  model_validate (model_dump m) = Ok m.
Proof.
  destruct m as [v w ds cs sh]. intros [wb Hwb]. cbn in Hwb. subst w.
  roundtrip. cbn [dump_optional TableauSemanticModel.workbook].
  rewrite validate_dump. reflexivity.
Qed.

(** * The domain classes *)

(** C1, counterexample. The constructor accepts a model whose only field
    has [source == "calculation"] and names no calculation, in a model
    without calculations: a dangling reference in an accepted value. *)
Lemma dangling_model_accepted :
  init dangling_kwargs = Ok dangling_model
  /\ no_dangling_ids dangling_model = false.
Proof. split; vm_compute; reflexivity. Qed.

(** C1, as amended. Construction of a [TableauSemanticModel] checks the
    fields of each entity and nothing across entities: every model that has
    a workbook, whether its ids resolve or dangle, is accepted from its own
    dump and comes back unchanged, ids included. *)
Theorem construction_checks_no_reference (m : TableauSemanticModel.t) :
  is_Some (TableauSemanticModel.workbook m) ->
  model_validate (model_dump m) = Ok m.
Proof. apply TableauSemanticModel_roundtrip. Qed.

Lemma construction_checks_no_reference_witness :
  is_Some (TableauSemanticModel.workbook dangling_model)
  /\ no_dangling_ids dangling_model = false
  /\ model_validate (model_dump dangling_model) = Ok dangling_model.
Proof.
  split; [by eexists|]. split; [reflexivity|].
  apply (construction_checks_no_reference dangling_model). by eexists.
Defined.

(** C3, counterexample. A calculation whose expression is the bare column
    reference [[amount]] is accepted with [complexity_score] 2.0, and with
    -1.0: scores outside [0,1], and not 0, in accepted values. *)
Lemma score_outside_unit_interval_accepted :
  init (calculation_kwargs (PyFloat float_two))
  = Ok (TableauCalculation.mk "c1" "amount" "ds1" "[amount]"
          Datatype.unknown Category.unknown float_two)
  /\ in_unit_interval float_two = false
  /\ init (calculation_kwargs (PyFloat float_minus_one))
     = Ok (TableauCalculation.mk "c1" "amount" "ds1" "[amount]"
             Datatype.unknown Category.unknown float_minus_one)
  /\ in_unit_interval float_minus_one = false.
Proof. repeat split; vm_compute; reflexivity. Qed.

(** C3, as amended. The [complexity_score] of an accepted
    [TableauCalculation] is the float it was given, any float at all; given
    none, it is exactly 0.0, whatever the expression. *)
Theorem complexity_score_is_any_float
  (d : kwargs) (c : TableauCalculation.t) (f : float) :
  init d = Ok c ->
  init (<["complexity_score" := PyFloat f]> d)
  = Ok (TableauCalculation.mk
          (TableauCalculation.id c) (TableauCalculation.name c)
          (TableauCalculation.datasource_id c) (TableauCalculation.expression c)
          (TableauCalculation.datatype c) (TableauCalculation.category c) f)
  /\ init (delete "complexity_score" d)
     = Ok (TableauCalculation.mk
             (TableauCalculation.id c) (TableauCalculation.name c)
             (TableauCalculation.datasource_id c) (TableauCalculation.expression c)
             (TableauCalculation.datatype c) (TableauCalculation.category c)
             float_zero).
Proof.
  intros H. inv_init H. subst c. cbn.
  split; unfold_models; other_keys; use_fields.
  - by rewrite defaulted_insert_eq.
  - by rewrite defaulted_delete_eq.
Qed.

Lemma complexity_score_is_any_float_witness :
  init (calculation_kwargs (PyFloat float_one))
  = Ok (TableauCalculation.mk "c1" "amount" "ds1" "[amount]"
          Datatype.unknown Category.unknown float_one)
  /\ init (<["complexity_score" := PyFloat float_two]>
             (calculation_kwargs (PyFloat float_one)))
     = Ok (TableauCalculation.mk "c1" "amount" "ds1" "[amount]"
             Datatype.unknown Category.unknown float_two)
  /\ init (delete "complexity_score" (calculation_kwargs (PyFloat float_one)))
     = Ok (TableauCalculation.mk "c1" "amount" "ds1" "[amount]"
             Datatype.unknown Category.unknown float_zero).
Proof.
  split; [vm_compute; reflexivity|].
  apply (complexity_score_is_any_float (calculation_kwargs (PyFloat float_one))
           (TableauCalculation.mk "c1" "amount" "ds1" "[amount]"
              Datatype.unknown Category.unknown float_one) float_two).
  vm_compute; reflexivity.
Defined.

(** C4, counterexample. A [TableauConnection] of type ["custom_sql"] is
    accepted without [raw_sql], which is then [None], and with the empty
    string for it. *)
Lemma custom_sql_without_raw_sql_accepted :
  init {["type" := PyStr "custom_sql"]}
  = Ok (TableauConnection.mk ConnectionType.custom_sql None None None None None)
  /\ init (<["raw_sql" := PyStr ""]> {["type" := PyStr "custom_sql"]})
     = Ok (TableauConnection.mk ConnectionType.custom_sql None None None None
             (Some "")).
Proof. split; vm_compute; reflexivity. Qed.

(** C4, as amended. [raw_sql] is an optional string that is not checked
    against [type]: arguments that make a connection still make one, of type
    ["custom_sql"], when [type] is ["custom_sql"] and [raw_sql] is left out,
    is [None] or is the empty string, and [raw_sql] is then [None], [None]
    and the empty string. *)
Theorem raw_sql_is_not_checked_against_type
  (d : kwargs) (c : TableauConnection.t) :
  init d = Ok c ->
  let custom_sql raw_sql :=
    Ok (TableauConnection.mk ConnectionType.custom_sql
          (TableauConnection.dialect c) (TableauConnection.database c)
          (TableauConnection.schema c) (TableauConnection.table c) raw_sql) in
  init (<["type" := PyStr "custom_sql"]> (delete "raw_sql" d)) = custom_sql None
  /\ init (<["type" := PyStr "custom_sql"]> (<["raw_sql" := PyNone]> d))
     = custom_sql None
  /\ init (<["type" := PyStr "custom_sql"]> (<["raw_sql" := PyStr ""]> d))
     = custom_sql (Some "").
Proof.
  intros H. inv_init H. subst c. cbn.
  repeat split; unfold_models; other_keys; use_fields;
    rewrite defaulted_insert_eq; other_keys; use_fields;
    by rewrite ?defaulted_insert_eq, ?defaulted_delete_eq.
Qed.

Lemma raw_sql_is_not_checked_against_type_witness :
  init {["type" := PyStr "table"; "table" := PyStr "orders"]}
  = Ok (TableauConnection.mk ConnectionType.table None None None (Some "orders") None)
  /\ init (<["type" := PyStr "custom_sql"]>
             (delete "raw_sql" {["type" := PyStr "table"; "table" := PyStr "orders"]}))
     = Ok (TableauConnection.mk ConnectionType.custom_sql None None None
             (Some "orders") None).
Proof.
  split; [vm_compute; reflexivity|].
  apply (raw_sql_is_not_checked_against_type
           {["type" := PyStr "table"; "table" := PyStr "orders"]}
           (TableauConnection.mk ConnectionType.table None None None
              (Some "orders") None)).
  vm_compute; reflexivity.
Defined.

(** C6. A [TableauField] constructed with no [role] has role ["unknown"],
    neither ["dimension"] nor ["measure"], whatever else it is given (an
    aggregation included); with no [datatype] its datatype is ["unknown"],
    and with no [source] its source is ["unknown"]. *)
Theorem field_classification_defaults (d : kwargs) (f : TableauField.t) :
  init d = Ok f ->
  (d !! "role" = None ->
     TableauField.role f = Role.unknown
     /\ TableauField.role f <> Role.dimension
     /\ TableauField.role f <> Role.measure
     /\ str (TableauField.role f) = "unknown")
  /\ (d !! "datatype" = None ->
        TableauField.datatype f = Datatype.unknown
        /\ str (TableauField.datatype f) = "unknown")
  /\ (d !! "source" = None ->
        TableauField.source f = Source.unknown
        /\ str (TableauField.source f) = "unknown").
Proof.
  intros H. inv_init H. subst f. cbn. split; [|split]; intros Hk.
  - by default_of "role".
  - by default_of "datatype".
  - by default_of "source".
Qed.

Lemma field_classification_defaults_witness :
  init (field_kwargs [("aggregation", PyStr "sum")])
  = Ok (TableauField.mk "f1" "order_id" None None Role.unknown Datatype.unknown
          (Some "sum") Source.unknown None None false [])
  /\ field_kwargs [("aggregation", PyStr "sum")] !! "role" = None
  /\ TableauField.role
       (TableauField.mk "f1" "order_id" None None Role.unknown Datatype.unknown
          (Some "sum") Source.unknown None None false []) = Role.unknown.
Proof.
  split; [vm_compute; reflexivity|]. split; [vm_compute; reflexivity|].
  apply (field_classification_defaults (field_kwargs [("aggregation", PyStr "sum")])
           (TableauField.mk "f1" "order_id" None None Role.unknown Datatype.unknown
              (Some "sum") Source.unknown None None false [])).
  - vm_compute; reflexivity.
  - vm_compute; reflexivity.
Defined.

(** C7, counterexample. A datasource with the tables [orders] and
    [line_items] and a field for the column [id] of the one and [order_id]
    of the other is accepted with a join of the two tables whose condition
    is the single equality [[orders.id] = [line_items.order_id]] and whose
    [needs_manual_review] is true: both ends of the join are tables of the
    datasource, both columns exist, and the flag is not false. *)
Lemma reviewed_equality_join_of_existing_columns :
  init reviewed_join_kwargs = Ok reviewed_join_datasource
  /\ TableauDatasource.joins reviewed_join_datasource = [reviewed_join]
  /\ join_resolves reviewed_join_datasource reviewed_join = true
  /\ has_column reviewed_join_datasource "orders" "id" = true
  /\ has_column reviewed_join_datasource "line_items" "order_id" = true
  /\ TableauJoin.condition reviewed_join
     = column_equality (TableauJoin.left_table_id reviewed_join) "id"
         (TableauJoin.right_table_id reviewed_join) "order_id"
  /\ TableauJoin.condition reviewed_join = "[orders.id] = [line_items.order_id]"
  /\ TableauJoin.needs_manual_review reviewed_join = true.
Proof. repeat split; vm_compute; reflexivity. Qed.

(** C7, as amended. A [TableauJoin] constructed without [join_type] has
    join type ["unknown"]; constructed without [needs_manual_review] it has
    the flag false, whatever its condition; constructed with the flag it
    has the flag it was given: the condition is kept as the string it was
    given and is not looked into. *)
Theorem join_defaults (d : kwargs) (j : TableauJoin.t) :
  init d = Ok j ->
  (d !! "join_type" = None ->
     TableauJoin.join_type j = JoinType.unknown
     /\ str (TableauJoin.join_type j) = "unknown")
  /\ (d !! "needs_manual_review" = None -> TableauJoin.needs_manual_review j = false)
  /\ (forall b, d !! "needs_manual_review" = Some (PyBool b) ->
        TableauJoin.needs_manual_review j = b)
  /\ d !! "condition" = Some (PyStr (TableauJoin.condition j)).
Proof.
  intros H. inv_init H. subst j. cbn. split; [|split; [|split]].
  - intros Hk. by default_of "join_type".
  - intros Hk. by default_of "needs_manual_review".
  - intros b Hk.
    match goal with
    | Hf : defaulted _ _ "needs_manual_review" _ = Ok _ |- _ =>
        rewrite (defaulted_Some _ _ _ _ _ Hk) in Hf; by injection Hf as <-
    end.
  - match goal with
    | Hf : required _ "condition" _ = Ok _ |- _ =>
        apply required_Ok in Hf as (v & -> & Hv); by apply as_str_Ok in Hv as ->
    end.
Qed.

Lemma join_defaults_witness :
  init (join_kwargs [])
  = Ok (TableauJoin.mk "j1" "orders" "line_items" JoinType.unknown
          "[orders.id] = [line_items.order_id]" false)
  /\ join_kwargs [] !! "join_type" = None
  /\ join_kwargs [] !! "needs_manual_review" = None
  /\ TableauJoin.join_type
       (TableauJoin.mk "j1" "orders" "line_items" JoinType.unknown
          "[orders.id] = [line_items.order_id]" false) = JoinType.unknown
  /\ TableauJoin.needs_manual_review
       (TableauJoin.mk "j1" "orders" "line_items" JoinType.unknown
          "[orders.id] = [line_items.order_id]" false) = false.
Proof.
  split; [vm_compute; reflexivity|]. split; [vm_compute; reflexivity|].
  split; [vm_compute; reflexivity|].
  destruct (join_defaults (join_kwargs [])
              (TableauJoin.mk "j1" "orders" "line_items" JoinType.unknown
                 "[orders.id] = [line_items.order_id]" false))
    as (Hty & Hrev & _); [vm_compute; reflexivity|].
  split.
  - apply Hty. vm_compute; reflexivity.
  - apply Hrev. vm_compute; reflexivity.
Defined.

(** C8. The role, datatype and source of a [TableauField], the category of
    a [TableauCalculation] and the type of a [TableauConnection] are closed
    enumerations: a constructor call that gives one of them a string outside
    the declared set fails, whatever the other arguments, and arguments that
    are accepted are still accepted with ["unknown"] for it, which becomes
    the value of the field. *)
Theorem classification_axes_are_closed (d : kwargs) (s : string) :
  (~ In s ["dimension"; "measure"; "unknown"] ->
     is_ok (init (A := TableauField.t) (<["role" := PyStr s]> d)) = false)
  /\ (~ In s ["string"; "number"; "date"; "datetime"; "boolean"; "unknown"] ->
        is_ok (init (A := TableauField.t) (<["datatype" := PyStr s]> d)) = false)
  /\ (~ In s ["column"; "calculation"; "parameter"; "unknown"] ->
        is_ok (init (A := TableauField.t) (<["source" := PyStr s]> d)) = false)
  /\ (~ In s ["simple"; "lod"; "table_calc"; "parameter_based"; "unknown"] ->
        is_ok (init (A := TableauCalculation.t) (<["category" := PyStr s]> d)) = false)
  /\ (~ In s ["table"; "custom_sql"; "extract"; "unknown"] ->
        is_ok (init (A := TableauConnection.t) (<["type" := PyStr s]> d)) = false)
  /\ (is_ok (init (A := TableauField.t) d) = true ->
        rmap TableauField.role (init (<["role" := PyStr "unknown"]> d))
        = Ok Role.unknown
        /\ rmap TableauField.datatype (init (<["datatype" := PyStr "unknown"]> d))
           = Ok Datatype.unknown
        /\ rmap TableauField.source (init (<["source" := PyStr "unknown"]> d))
           = Ok Source.unknown)
  /\ (is_ok (init (A := TableauCalculation.t) d) = true ->
        rmap TableauCalculation.category (init (<["category" := PyStr "unknown"]> d))
        = Ok Category.unknown)
  /\ (is_ok (init (A := TableauConnection.t) d) = true ->
        rmap TableauConnection.type (init (<["type" := PyStr "unknown"]> d))
        = Ok ConnectionType.unknown).
Proof.
  split; [intros Hs|split; [intros Hs|split; [intros Hs|split; [intros Hs|
    split; [intros Hs|split; [intros H|split; intros H]]]]]].
  - unfold_models. other_keys. rewrite defaulted_insert_eq.
    rewrite (as_literal_undeclared (E := Role.t) s) by exact Hs. first_failure.
  - unfold_models. other_keys. rewrite defaulted_insert_eq.
    rewrite (as_literal_undeclared (E := Datatype.t) s) by exact Hs. first_failure.
  - unfold_models. other_keys. rewrite defaulted_insert_eq.
    rewrite (as_literal_undeclared (E := Source.t) s) by exact Hs. first_failure.
  - unfold_models. other_keys. rewrite defaulted_insert_eq.
    rewrite (as_literal_undeclared (E := Category.t) s) by exact Hs. first_failure.
  - unfold_models. other_keys. rewrite defaulted_insert_eq.
    rewrite (as_literal_undeclared (E := ConnectionType.t) s) by exact Hs.
    first_failure.
  - destruct (init d) as [f|] eqn:Hinit; [clear H|discriminate H].
    inv_init Hinit.
    repeat split; unfold_models; other_keys; use_fields;
      rewrite defaulted_insert_eq; cbn [as_literal of_str]; other_keys; use_fields;
      reflexivity.
  - destruct (init d) as [f|] eqn:Hinit; [clear H|discriminate H].
    inv_init Hinit.
    unfold_models; other_keys; use_fields;
      rewrite defaulted_insert_eq; cbn [as_literal of_str]; other_keys; use_fields;
      reflexivity.
  - destruct (init d) as [f|] eqn:Hinit; [clear H|discriminate H].
    inv_init Hinit.
    unfold_models; other_keys; use_fields;
      rewrite defaulted_insert_eq; cbn [as_literal of_str]; other_keys; use_fields;
      reflexivity.
Qed.

Lemma classification_axes_are_closed_witness :
  ~ In "measures" ["dimension"; "measure"; "unknown"]
  /\ is_ok (init (A := TableauField.t) (<["role" := PyStr "measures"]> (field_kwargs [])))
     = false
  /\ is_ok (init (A := TableauField.t) (field_kwargs [])) = true
  /\ rmap TableauField.role (init (<["role" := PyStr "unknown"]> (field_kwargs [])))
     = Ok Role.unknown.
Proof.
  destruct (classification_axes_are_closed (field_kwargs []) "measures")
    as (Hrole & _ & _ & _ & _ & Hunknown & _).
  assert (Hs : ~ In "measures" ["dimension"; "measure"; "unknown"])
    by (intros [H|[H|[H|[]]]]; discriminate H).
  assert (Hok : is_ok (init (A := TableauField.t) (field_kwargs [])) = true)
    by (vm_compute; reflexivity).
  split; [exact Hs|]. split; [exact (Hrole Hs)|]. split; [exact Hok|].
  exact (proj1 (Hunknown Hok)).
Defined.

(** C5. [all_files] is the three lists one after the other, model files
    first, then view files, then dashboard files; every file keeps its
    place inside its own list (place [i] of the result is place [i] of the
    model files, else place [i - len(model_files)] of the view files, else
    the dashboard file that many places further), and the length is the sum
    of the three lengths. *)
Theorem all_files_concat (p : LookMLProject.t) :
  LookMLProject.all_files p
  = LookMLProject.model_files p
    ++ (LookMLProject.view_files p ++ LookMLProject.dashboard_files p)
  /\ length (LookMLProject.all_files p)
     = length (LookMLProject.model_files p) + length (LookMLProject.view_files p)
       + length (LookMLProject.dashboard_files p)
  /\ forall i : nat,
       LookMLProject.all_files p !! i =
         if decide (i < length (LookMLProject.model_files p))
         then LookMLProject.model_files p !! i
         else if decide (i < length (LookMLProject.model_files p)
                             + length (LookMLProject.view_files p))
              then LookMLProject.view_files p
                     !! (i - length (LookMLProject.model_files p))
              else LookMLProject.dashboard_files p
                     !! (i - length (LookMLProject.model_files p)
                           - length (LookMLProject.view_files p)).
Proof.
  destruct p as [ms vs ds]. unfold LookMLProject.all_files. cbn.
  split; [by rewrite <- app_assoc|]. split.
  - rewrite !length_app. lia.
  - intros i. repeat case_decide.
    + rewrite <- app_assoc. by apply lookup_app_l.
    + rewrite <- app_assoc, lookup_app_r by lia. apply lookup_app_l. lia.
    + rewrite lookup_app_r by (rewrite length_app; lia).
      rewrite length_app. f_equal. lia.
Qed.

(** * The entrypoint *)

Lemma placeholder_init :
  init (list_to_map [("id", PyStr "unknown"); ("name", PyStr "Unknown Workbook");
                     ("description", PyNone)])
  = Ok placeholder_workbook.
Proof. unfold_models. lookup_keys. reflexivity. Qed.

Lemma validated_has_workbook (v : PyVal) (m : TableauSemanticModel.t) :
  model_validate v = Ok m -> is_Some (TableauSemanticModel.workbook m).
Proof. intros Hv. destruct v; try discriminate Hv. inv_init Hv. subst m. by eexists. Qed.

(** [workbook] is required: left out or [None], construction fails. *)
Lemma workbook_is_required (d : kwargs) :
  d !! "workbook" = None \/ d !! "workbook" = Some PyNone ->
  is_ok (init (A := TableauSemanticModel.t) d) = false.
Proof.
  intros Hw. unfold_models. unfold required at 1.
  destruct Hw as [-> | ->]; cbn; first_failure.
Qed.

Section entrypoint.
Context {G : Type}.
Variable parse_twb_xml_to_raw_spec : list Byte.byte -> M G kwargs.
Variable raw_spec_to_semantic_model : kwargs -> M G loc.

(** Once the reader and the assembler have returned, the entrypoint returns
    the assembler's instance, and the state is the assembler's except for
    the workbook of that instance when it was [None]. *)
Lemma parse_after_assembly b st raw_spec st1 semantic_model st2 m :
  parse_twb_xml_to_raw_spec b st = (Ok raw_spec, st1) ->
  raw_spec_to_semantic_model raw_spec st1 = (Ok semantic_model, st2) ->
  heap st2 !! semantic_model = Some m ->
  parse_twb_to_semantic_model parse_twb_xml_to_raw_spec
    raw_spec_to_semantic_model b st =
    (Ok semantic_model,
     match TableauSemanticModel.workbook m with
     | None =>
         mkState (<[semantic_model := with_workbook (Some placeholder_workbook) m]>
                    (heap st2))
                 (globals st2)
     | Some _ => st2
     end).
Proof.
  intros Hr Ha Hm. unfold parse_twb_to_semantic_model, bind.
  rewrite Hr, Ha. unfold get_workbook. rewrite Hm.
  destruct (TableauSemanticModel.workbook m) as [w|]; [done|].
  unfold lift. rewrite placeholder_init. unfold set_workbook. by rewrite Hm.
Qed.

(** C2. When the instance that [raw_spec_to_semantic_model] returns has no
    workbook (its [workbook] is [None]), [parse_twb_to_semantic_model]
    returns that same instance with the workbook of id ["unknown"], name
    ["Unknown Workbook"] and description [None], and nothing else is
    changed: the other fields of the instance, every other instance and the
    rest of the state are as the assembler left them. *)
Theorem missing_workbook_gets_placeholder b st raw_spec st1 semantic_model st2 m :
  parse_twb_xml_to_raw_spec b st = (Ok raw_spec, st1) ->
  raw_spec_to_semantic_model raw_spec st1 = (Ok semantic_model, st2) ->
  heap st2 !! semantic_model = Some m ->
  TableauSemanticModel.workbook m = None ->
  exists st3,
    parse_twb_to_semantic_model parse_twb_xml_to_raw_spec
      raw_spec_to_semantic_model b st = (Ok semantic_model, st3)
    /\ heap st3 !! semantic_model
       = Some (TableauSemanticModel.mk
                 (TableauSemanticModel.schema_version m)
                 (Some (TableauWorkbook.mk "unknown" "Unknown Workbook" None))
                 (TableauSemanticModel.datasources m)
                 (TableauSemanticModel.calculations m)
                 (TableauSemanticModel.sheets m))
    /\ (forall l, l <> semantic_model -> heap st3 !! l = heap st2 !! l)
    /\ globals st3 = globals st2.
Proof.
  intros Hr Ha Hm Hw. eexists. split.
  - rewrite (parse_after_assembly _ _ _ _ _ _ _ Hr Ha Hm), Hw. reflexivity.
  - cbn. split; [by rewrite lookup_insert_eq|]. split; [|done].
    intros l Hl. by rewrite lookup_insert_ne.
Qed.

(** C10. A [TableauSemanticModel] accepted by validation has a workbook,
    never [None]; so when [raw_spec_to_semantic_model] returns an instance
    holding a validated model, [parse_twb_to_semantic_model] returns it
    with the state as the assembler left it: the branch that substitutes
    the placeholder is not taken. *)
Theorem validated_model_keeps_its_workbook (v : PyVal) (m : TableauSemanticModel.t) :
  model_validate v = Ok m ->
  is_Some (TableauSemanticModel.workbook m)
  /\ forall b st raw_spec st1 semantic_model st2,
       parse_twb_xml_to_raw_spec b st = (Ok raw_spec, st1) ->
       raw_spec_to_semantic_model raw_spec st1 = (Ok semantic_model, st2) ->
       heap st2 !! semantic_model = Some m ->
       parse_twb_to_semantic_model parse_twb_xml_to_raw_spec
         raw_spec_to_semantic_model b st = (Ok semantic_model, st2).
Proof.
  intros Hv. pose proof (validated_has_workbook v m Hv) as Hw.
  split; [exact Hw|]. intros b st raw_spec st1 semantic_model st2 Hr Ha Hm.
  rewrite (parse_after_assembly _ _ _ _ _ _ _ Hr Ha Hm).
  by destruct Hw as [w ->].
Qed.

End entrypoint.

Lemma missing_workbook_gets_placeholder_witness :
  sample_reader [Byte.x00] empty_state = (Ok ∅, empty_state)
  /\ sample_assembler ∅ empty_state = (Ok 0, mkState {[0 := sample_model None]} tt)
  /\ exists st3,
       parse_twb_to_semantic_model sample_reader sample_assembler [Byte.x00] empty_state
       = (Ok 0, st3)
       /\ heap st3 !! 0 = Some (sample_model (Some placeholder_workbook))
       /\ (forall l, l <> 0 -> heap st3 !! l = ({[0 := sample_model None]} : gmap loc _) !! l)
       /\ globals st3 = tt.
Proof.
  split; [reflexivity|]. split; [reflexivity|].
  exact (missing_workbook_gets_placeholder sample_reader sample_assembler
           [Byte.x00] empty_state ∅ empty_state 0
           (mkState {[0 := sample_model None]} tt) (sample_model None)
           eq_refl eq_refl eq_refl eq_refl).
Defined.

Lemma validated_model_keeps_its_workbook_witness :
  model_validate (PyDict sample_raw_spec)
  = Ok (sample_model (Some (TableauWorkbook.mk "wb1" "Sales" None)))
  /\ sample_reader [Byte.x01] empty_state = (Ok sample_raw_spec, empty_state)
  /\ parse_twb_to_semantic_model sample_reader sample_assembler [Byte.x01] empty_state
     = (Ok 0,
        mkState {[0 := sample_model (Some (TableauWorkbook.mk "wb1" "Sales" None))]} tt).
Proof.
  split; [vm_compute; reflexivity|]. split; [reflexivity|].
  apply (validated_model_keeps_its_workbook sample_reader sample_assembler
           (PyDict sample_raw_spec)
           (sample_model (Some (TableauWorkbook.mk "wb1" "Sales" None))))
    with (raw_spec := sample_raw_spec) (st1 := empty_state);
    vm_compute; reflexivity.
Defined.

(** * More on the field types *)

Lemma required_None {A} (f : PyVal -> Result A) (k : string) (d : kwargs) :
  d !! k = None -> required f k d = Raise ValidationError.
Proof. unfold required. by intros ->. Qed.

Lemma required_Some {A} (f : PyVal -> Result A) (k : string) (v : PyVal) (d : kwargs) :
  d !! k = Some v -> required f k d = f v.
Proof. unfold required. by intros ->. Qed.

Lemma traverse_Forall2 {A B} (f : A -> Result B) (l : list A) (l' : list B) :
  traverse f l = Ok l' <-> Forall2 (fun a b => f a = Ok b) l l'.
Proof.
  revert l'. induction l as [|a l IH]; intros l'; cbn.
  - split; [by intros [= <-]|]. by intros ->%Forall2_nil_inv_l.
  - split.
    + intros H. apply rbind_Ok in H as (b & Hb & H).
      apply rbind_Ok in H as (bs & Hbs & [= <-]).
      constructor; [done|]. by apply IH.
    + intros (b & bs & Hb & Hbs & ->)%Forall2_cons_inv_l.
      apply IH in Hbs. by rewrite Hb, Hbs.
Qed.

Lemma traverse_fails {A B} (f : A -> Result B) (l : list A) (a : A) :
  In a l -> is_ok (f a) = false -> is_ok (traverse f l) = false.
Proof.
  intros Hin Ha. induction l as [|a' l IH]; [done|]. cbn.
  destruct Hin as [->|Hin].
  - by destruct (f a).
  - destruct (f a'); [|done]. cbn. specialize (IH Hin).
    by destruct (traverse f l).
Qed.

Lemma as_dict_dump {A} (f : PyVal -> Result A) (g : A -> PyVal) (m : gmap string A) :
  (forall a, f (g a) = Ok a) -> as_dict f (dump_dict g m) = Ok m.
Proof.
  intros Hfg. cbn. case_decide as Hall.
  - f_equal. apply map_eq. intros k. rewrite lookup_omap, lookup_fmap.
    destruct (m !! k) as [a|]; [|done]. cbn. by rewrite Hfg.
  - destruct Hall. intros k v. rewrite lookup_fmap.
    destruct (m !! k) as [a|]; [|done]. intros [= <-]. by rewrite Hfg.
Qed.

Lemma as_dict_Ok {A} (f : PyVal -> Result A) (t : gmap string PyVal)
  (m : gmap string A) :
  as_dict f (PyDict t) = Ok m ->
  (forall k v, t !! k = Some v -> is_ok (f v) = true)
  /\ (forall k, m !! k = t !! k ≫= (fun v => ok_value (f v))).
Proof.
  cbn. case_decide as Hall; [|done]. intros [= <-]. split; [exact Hall|].
  intros k. by rewrite lookup_omap.
Qed.

Lemma as_dict_fails {A} (f : PyVal -> Result A) (t : gmap string PyVal)
  (k : string) (v : PyVal) :
  t !! k = Some v -> is_ok (f v) = false -> as_dict f (PyDict t) = Raise ValidationError.
Proof.
  intros Hk Hv. cbn. case_decide as Hall; [|done].
  specialize (Hall k v Hk). cbn in Hall. congruence.
Qed.

#[global] Instance DashboardSummary_roundtrip : Roundtrip DashboardSummary.t.
Proof.
  intros []. unfold model_validate, model_dump.
  cbn [init dump_fields DashboardSummary.base_model]. lookup_keys.
  rewrite as_dict_dump by done. reflexivity.
Qed.

#[global] Instance QAReport_roundtrip : Roundtrip QAReport.t.
Proof.
  intros []. unfold model_validate, model_dump.
  cbn [init dump_fields QAReport.base_model]. lookup_keys.
  rewrite ?as_optional_str, ?as_list_str, ?validate_dump_opt. reflexivity.
Qed.

(** ** Proof steps for the keys of a class *)

(** [Forall P [k1; ...; kn]] as one hypothesis per key. *)
Ltac each_key H :=
  repeat match type of H with
    | Forall _ (_ :: _) =>
        let Hk := fresh "Hk" in apply Forall_cons in H as [Hk H]
    end;
  clear H.

(** [Exists P [k1; ...; kn]] as one goal per key. *)
Ltac some_key H :=
  repeat match type of H with
    | Exists _ (_ :: _) => apply Exists_cons in H as [H|H]
    end;
  try (by apply Exists_nil in H).

Ltac missing_required H :=
  some_key H; unfold_models; rewrite (required_None _ _ _ H); first_failure.

Ltac same_fields H :=
  each_key H; unfold_models; unfold required, defaulted;
  repeat match goal with
    | Hk : ?d !! ?k = _ |- context [?d !! ?k] => rewrite Hk; clear Hk
    end;
  reflexivity.

(** * Dump and validation, class by class *)

(** X4. A workbook, a connection, a table and a join are each accepted
    from their own dump and come back unchanged. *)
Theorem connection_layer_dump_roundtrip :
  (forall x : TableauWorkbook.t, model_validate (model_dump x) = Ok x)
  /\ (forall x : TableauConnection.t, model_validate (model_dump x) = Ok x)
  /\ (forall x : TableauTable.t, model_validate (model_dump x) = Ok x)
  /\ (forall x : TableauJoin.t, model_validate (model_dump x) = Ok x).
Proof. repeat split; apply validate_dump. Qed.

(** X5. A field, a calculation, a sheet filter and a sheet visualization are
    each accepted from their own dump and come back unchanged, the members
    of their enumerations and the score of a calculation included. *)
Theorem field_layer_dump_roundtrip :
  (forall x : TableauField.t, model_validate (model_dump x) = Ok x)
  /\ (forall x : TableauCalculation.t, model_validate (model_dump x) = Ok x)
  /\ (forall x : TableauSheetFilter.t, model_validate (model_dump x) = Ok x)
  /\ (forall x : TableauSheetVisualization.t, model_validate (model_dump x) = Ok x).
Proof. repeat split; apply validate_dump. Qed.

(** X6. A sheet, with its filters and its visualization, and a datasource,
    with its connection, tables, joins and fields, are each accepted from
    their own dump and come back unchanged, the nested lists in their order. *)
Theorem container_dump_roundtrip :
  (forall x : TableauSheet.t, model_validate (model_dump x) = Ok x)
  /\ (forall x : TableauDatasource.t, model_validate (model_dump x) = Ok x).
Proof. split; apply validate_dump. Qed.

(** X18. A LookML file and a LookML project are each accepted from their
    own dump and come back unchanged; [all_files] of the project read back
    is [all_files] of the project dumped. *)
Theorem lookml_dump_roundtrip :
  (forall x : LookMLFile.t, model_validate (model_dump x) = Ok x)
  /\ (forall p : LookMLProject.t,
        model_validate (model_dump p) = Ok p
        /\ rmap LookMLProject.all_files (model_validate (model_dump p))
           = Ok (LookMLProject.all_files p)).
Proof.
  split; [apply validate_dump|]. intros p. by rewrite validate_dump.
Qed.

(** X20. A dashboard summary, with its histogram of tiles, and a QA report,
    with its optional summary, are each accepted from their own dump and
    come back unchanged. *)
Theorem qa_report_dump_roundtrip :
  (forall x : DashboardSummary.t, model_validate (model_dump x) = Ok x)
  /\ (forall x : QAReport.t, model_validate (model_dump x) = Ok x).
Proof. split; apply validate_dump. Qed.

(** * Keys *)

(** X7. Construction of a semantic model, a datasource, a sheet and a field
    reads the keys that name a field of the class and no other: two sets of
    arguments that agree on those keys give the same instance or both fail,
    so a key that names no field is ignored. *)
Theorem only_declared_keys_matter (d d' : kwargs) :
  (Forall (fun k => d !! k = d' !! k)
     ["schema_version"; "workbook"; "datasources"; "calculations"; "sheets"] ->
   init (A := TableauSemanticModel.t) d = init d')
  /\ (Forall (fun k => d !! k = d' !! k)
        ["id"; "name"; "connection"; "tables"; "joins"; "fields"] ->
      init (A := TableauDatasource.t) d = init d')
  /\ (Forall (fun k => d !! k = d' !! k)
        ["id"; "name"; "datasource_id"; "used_field_ids"; "filters";
         "visualization"; "description"] ->
      init (A := TableauSheet.t) d = init d')
  /\ (Forall (fun k => d !! k = d' !! k)
        ["id"; "name"; "caption"; "table_id"; "role"; "datatype"; "aggregation";
         "source"; "column_name"; "calculation_id"; "is_hidden"; "tags"] ->
      init (A := TableauField.t) d = init d').
Proof. repeat split; intros H; same_fields H. Qed.

(** X8. A join without its id, one of its two table ids or its condition,
    a calculation without its id, name, datasource id or expression, a
    datasource without its id, name or connection, and a sheet without its
    id, name or datasource id are not constructed, whatever else is given. *)
Theorem missing_required_key_fails (d : kwargs) :
  (Exists (fun k => d !! k = None) ["id"; "left_table_id"; "right_table_id"; "condition"] ->
   is_ok (init (A := TableauJoin.t) d) = false)
  /\ (Exists (fun k => d !! k = None) ["id"; "name"; "datasource_id"; "expression"] ->
      is_ok (init (A := TableauCalculation.t) d) = false)
  /\ (Exists (fun k => d !! k = None) ["id"; "name"; "connection"] ->
      is_ok (init (A := TableauDatasource.t) d) = false)
  /\ (Exists (fun k => d !! k = None) ["id"; "name"; "datasource_id"] ->
      is_ok (init (A := TableauSheet.t) d) = false).
Proof. repeat split; intros H; missing_required H. Qed.

(** X9. A workbook, a table and a field without an id or a name, and a
    sheet filter without its field id or its expression, are not
    constructed, whatever else is given. *)
Theorem missing_required_key_fails_leaf (d : kwargs) :
  (Exists (fun k => d !! k = None) ["id"; "name"] ->
   is_ok (init (A := TableauWorkbook.t) d) = false)
  /\ (Exists (fun k => d !! k = None) ["id"; "name"] ->
      is_ok (init (A := TableauTable.t) d) = false)
  /\ (Exists (fun k => d !! k = None) ["id"; "name"] ->
      is_ok (init (A := TableauField.t) d) = false)
  /\ (Exists (fun k => d !! k = None) ["field_id"; "expression"] ->
      is_ok (init (A := TableauSheetFilter.t) d) = false).
Proof. repeat split; intros H; missing_required H. Qed.

Ltac unfold_reports :=
  unfold model_validate, model_dump;
  cbn [init dump_fields DashboardSummary.base_model QAReport.base_model
       LookMLFile.base_model LookMLProject.base_model].

(** X19. A LookML file needs its filename and its content, a LookML
    project each of its three lists (none of them defaults to the empty
    list), a dashboard summary its three counts and a QA report its
    [manual_intervention_required] flag: without one of them construction
    fails. *)
Theorem missing_required_key_fails_output (d : kwargs) :
  (Exists (fun k => d !! k = None) ["filename"; "content"] ->
   is_ok (init (A := LookMLFile.t) d) = false)
  /\ (Exists (fun k => d !! k = None) ["model_files"; "view_files"; "dashboard_files"] ->
      is_ok (init (A := LookMLProject.t) d) = false)
  /\ (Exists (fun k => d !! k = None)
        ["total_sheets"; "dashboards_created"; "tiles_created"] ->
      is_ok (init (A := DashboardSummary.t) d) = false)
  /\ (d !! "manual_intervention_required" = None ->
      is_ok (init (A := QAReport.t) d) = false).
Proof.
  split; [|split; [|split]]; intros H.
  - missing_required H.
  - missing_required H.
  - some_key H; unfold_reports; rewrite (required_None _ _ _ H); first_failure.
  - unfold_reports. by rewrite (required_None _ _ _ H).
Qed.

(** X10. A connection and a sheet visualization have no required field:
    constructed with none of their fields given, also from no argument at
    all, the connection has type ["unknown"] and [None] everywhere else,
    and the visualization has chart type ["unknown"], no primary dimension,
    no measures, no split and no sort order or granularity. *)
Theorem all_defaults_without_arguments (d : kwargs) :
  (Forall (fun k => d !! k = None)
     ["type"; "dialect"; "database"; "schema"; "table"; "raw_sql"] ->
   init (A := TableauConnection.t) d
   = Ok (TableauConnection.mk ConnectionType.unknown None None None None None))
  /\ (Forall (fun k => d !! k = None)
        ["chart_type"; "primary_dimension_id"; "primary_measure_ids";
         "split_by_dimension_ids"; "sort_order"; "granularity"] ->
      init (A := TableauSheetVisualization.t) d
      = Ok (TableauSheetVisualization.mk ChartType.unknown None [] [] None None)).
Proof.
  split; intros H; each_key H; unfold_models;
    repeat match goal with
      | Hk : d !! ?k = None |- context [defaulted ?f ?x ?k d] =>
          rewrite (defaulted_None f x k d Hk)
      end; reflexivity.
Qed.

(** X11. What is left out takes its declared default: a semantic model has
    schema version ["1.0"] and empty lists of datasources, calculations and
    sheets; a datasource has empty lists of tables, joins and fields; a sheet
    has no used field, no filter, no visualization and no description; a
    table is not primary and has no database, schema or table name. *)
Theorem container_defaults (d : kwargs) :
  (forall m : TableauSemanticModel.t, init d = Ok m ->
     (d !! "schema_version" = None -> TableauSemanticModel.schema_version m = "1.0")
     /\ (d !! "datasources" = None -> TableauSemanticModel.datasources m = [])
     /\ (d !! "calculations" = None -> TableauSemanticModel.calculations m = [])
     /\ (d !! "sheets" = None -> TableauSemanticModel.sheets m = []))
  /\ (forall ds : TableauDatasource.t, init d = Ok ds ->
        (d !! "tables" = None -> TableauDatasource.tables ds = [])
        /\ (d !! "joins" = None -> TableauDatasource.joins ds = [])
        /\ (d !! "fields" = None -> TableauDatasource.fields ds = []))
  /\ (forall sh : TableauSheet.t, init d = Ok sh ->
        (d !! "used_field_ids" = None -> TableauSheet.used_field_ids sh = [])
        /\ (d !! "filters" = None -> TableauSheet.filters sh = [])
        /\ (d !! "visualization" = None -> TableauSheet.visualization sh = None)
        /\ (d !! "description" = None -> TableauSheet.description sh = None))
  /\ (forall t : TableauTable.t, init d = Ok t ->
        (d !! "is_primary" = None -> TableauTable.is_primary t = false)
        /\ (d !! "database" = None -> TableauTable.database t = None)
        /\ (d !! "schema" = None -> TableauTable.schema t = None)
        /\ (d !! "table" = None -> TableauTable.table t = None)).
Proof.
  split; [|split; [|split]]; intros x H; inv_init H; subst x; cbn.
  - split; [|split; [|split]]; intros Hk;
      [by default_of "schema_version"|by default_of "datasources"
      |by default_of "calculations"|by default_of "sheets"].
  - split; [|split]; intros Hk;
      [by default_of "tables"|by default_of "joins"|by default_of "fields"].
  - split; [|split; [|split]]; intros Hk;
      [by default_of "used_field_ids"|by default_of "filters"
      |by default_of "visualization"|by default_of "description"].
  - split; [|split; [|split]]; intros Hk;
      [by default_of "is_primary"|by default_of "database"
      |by default_of "schema"|by default_of "table"].
Qed.

(** X12. For the five optional strings of a [TableauField], giving [None]
    is the same as leaving the argument out; for its id, name, role,
    datatype, source, hidden flag and tags, [None] makes construction
    fail. *)
Theorem field_none_arguments (d : kwargs) (k : string) :
  (In k ["caption"; "table_id"; "aggregation"; "column_name"; "calculation_id"] ->
   init (A := TableauField.t) (<[k := PyNone]> d) = init (delete k d))
  /\ (In k ["id"; "name"; "role"; "datatype"; "source"; "is_hidden"; "tags"] ->
      d !! k = Some PyNone -> is_ok (init (A := TableauField.t) d) = false).
Proof.
  split.
  - intros [<-|[<-|[<-|[<-|[<-|[]]]]]]; unfold_models;
      rewrite defaulted_insert_eq, defaulted_delete_eq; other_keys; reflexivity.
  - intros [<-|[<-|[<-|[<-|[<-|[<-|[<-|[]]]]]]]] Hd; unfold_models;
      rewrite ?(required_Some _ _ _ _ Hd), ?(defaulted_Some _ _ _ _ _ Hd);
      cbn [as_str as_bool as_literal as_list]; first_failure.
Qed.

(** * Lists of nested models *)

Lemma as_list_Ok {A} (f : PyVal -> Result A) (v : PyVal) (xs : list A) :
  as_list f v = Ok xs ->
  exists l, v = PyList l /\ Forall2 (fun a x => f a = Ok x) l xs.
Proof.
  destruct v; try discriminate. cbn. intros H. eexists. split; [done|].
  by apply traverse_Forall2.
Qed.

(** X13. The datasources, calculations and sheets of an accepted semantic
    model are the validated items of the lists it was given, one for one and
    in the same order. *)
Theorem model_lists_are_validated_in_order (d : kwargs) (m : TableauSemanticModel.t) :
  init d = Ok m ->
  (forall l, d !! "datasources" = Some (PyList l) ->
     Forall2 (fun v x => model_validate v = Ok x) l (TableauSemanticModel.datasources m))
  /\ (forall l, d !! "calculations" = Some (PyList l) ->
        Forall2 (fun v x => model_validate v = Ok x) l
          (TableauSemanticModel.calculations m))
  /\ (forall l, d !! "sheets" = Some (PyList l) ->
        Forall2 (fun v x => model_validate v = Ok x) l (TableauSemanticModel.sheets m)).
Proof.
  intros H. inv_init H. subst m. cbn.
  split; [|split]; intros l Hl;
    match goal with
    | Hf : defaulted (as_list _) _ ?k d = Ok _, Hk : d !! ?k = Some _ |- _ =>
        rewrite (defaulted_Some _ _ _ _ _ Hk) in Hf;
        apply as_list_Ok in Hf as (l' & [= <-] & Hf); exact Hf
    end.
Qed.

(** X14. One datasource, calculation or sheet that fails validation makes
    the construction of the whole semantic model fail: no model is built
    from the items that are valid. *)
Theorem invalid_item_fails_the_model (d : kwargs) (l : list PyVal) (v : PyVal) :
  In v l ->
  (d !! "datasources" = Some (PyList l) ->
   is_ok (model_validate (A := TableauDatasource.t) v) = false ->
   is_ok (init (A := TableauSemanticModel.t) d) = false)
  /\ (d !! "calculations" = Some (PyList l) ->
      is_ok (model_validate (A := TableauCalculation.t) v) = false ->
      is_ok (init (A := TableauSemanticModel.t) d) = false)
  /\ (d !! "sheets" = Some (PyList l) ->
      is_ok (model_validate (A := TableauSheet.t) v) = false ->
      is_ok (init (A := TableauSemanticModel.t) d) = false).
Proof.
  intros Hin. split; [|split]; intros Hd Hv; unfold_models;
    rewrite (defaulted_Some _ _ _ _ _ Hd); cbn [as_list];
    pose proof (traverse_fails _ _ _ Hin Hv) as Hl;
    match type of Hl with
    | is_ok ?t = false => destruct t; [discriminate Hl|]
    end; first_failure.
Qed.

(** * The other enumerations *)

(** X15. The join type of a join, the scope of a sheet filter and the chart
    type of a visualization are closed enumerations: a string outside the
    declared set makes construction fail, whatever the other arguments; the
    scope and the chart type are ["unknown"] when not given. *)
Theorem other_axes_are_closed (d : kwargs) (s : string) :
  (~ In s ["inner"; "left"; "right"; "full"; "unknown"] ->
   is_ok (init (A := TableauJoin.t) (<["join_type" := PyStr s]> d)) = false)
  /\ (~ In s ["rows"; "columns"; "table"; "unknown"] ->
      is_ok (init (A := TableauSheetFilter.t) (<["applied_to" := PyStr s]> d)) = false)
  /\ (~ In s ["table"; "bar"; "line"; "area"; "scatter"; "pie"; "single_value";
               "unknown"] ->
      is_ok (init (A := TableauSheetVisualization.t) (<["chart_type" := PyStr s]> d))
      = false)
  /\ (forall x : TableauSheetFilter.t, init d = Ok x ->
        d !! "applied_to" = None -> TableauSheetFilter.applied_to x = AppliedTo.unknown)
  /\ (forall x : TableauSheetVisualization.t, init d = Ok x ->
        d !! "chart_type" = None ->
        TableauSheetVisualization.chart_type x = ChartType.unknown).
Proof.
  split; [intros Hs|split; [intros Hs|split; [intros Hs|split; intros x H Hk]]].
  - unfold_models. rewrite defaulted_insert_eq.
    rewrite (as_literal_undeclared (E := JoinType.t) s) by exact Hs. first_failure.
  - unfold_models. rewrite defaulted_insert_eq.
    rewrite (as_literal_undeclared (E := AppliedTo.t) s) by exact Hs. first_failure.
  - unfold_models. rewrite defaulted_insert_eq.
    rewrite (as_literal_undeclared (E := ChartType.t) s) by exact Hs. first_failure.
  - inv_init H. subst x. cbn. by default_of "applied_to".
  - inv_init H. subst x. cbn. by default_of "chart_type".
Qed.

(** * The LookML project *)

(** X16. A file is among [all_files] exactly when it is a model file, a
    view file or a dashboard file of the project, and [all_files] is empty
    exactly when the three lists are. *)
Theorem all_files_membership (p : LookMLProject.t) (f : LookMLFile.t) :
  (In f (LookMLProject.all_files p) <->
     In f (LookMLProject.model_files p) \/ In f (LookMLProject.view_files p)
     \/ In f (LookMLProject.dashboard_files p))
  /\ (LookMLProject.all_files p = [] <->
        LookMLProject.model_files p = [] /\ LookMLProject.view_files p = []
        /\ LookMLProject.dashboard_files p = []).
Proof.
  destruct p as [ms vs ds]. unfold LookMLProject.all_files. cbn. split.
  - rewrite !in_app_iff. tauto.
  - split.
    + intros H. apply app_eq_nil in H as [H ->]. by apply app_eq_nil in H as [-> ->].
    + by intros (-> & -> & ->).
Qed.

(** X17. [all_files] of a project constructed from three lists has as many
    files as the three lists have items, and is the validated items of the
    model list, then those of the view list, then those of the dashboard
    list. *)
Theorem project_file_count (d : kwargs) (p : LookMLProject.t) (ms vs ds : list PyVal) :
  init d = Ok p ->
  d !! "model_files" = Some (PyList ms) ->
  d !! "view_files" = Some (PyList vs) ->
  d !! "dashboard_files" = Some (PyList ds) ->
  length (LookMLProject.all_files p) = length ms + length vs + length ds
  /\ Forall2 (fun v f => model_validate v = Ok f) (ms ++ vs ++ ds)
       (LookMLProject.all_files p).
Proof.
  intros H Hm Hv Hd. unfold model_validate in H.
  cbn [init LookMLProject.base_model] in H. repeat inv_bind H. injection H as <-.
  repeat match goal with
    | Hf : required (as_list _) ?k d = Ok _, Hk : d !! ?k = Some _ |- _ =>
        rewrite (required_Some _ _ _ _ Hk) in Hf;
        apply as_list_Ok in Hf as (? & [= <-] & Hf)
    end.
  unfold LookMLProject.all_files. cbn.
  assert (Hall : Forall2 (fun v f => model_validate (A := LookMLFile.t) v = Ok f)
                   (ms ++ vs ++ ds) ((a ++ a0) ++ a1)).
  { rewrite <- app_assoc. by repeat apply Forall2_app. }
  split; [|exact Hall].
  apply Forall2_length in Hall. rewrite <- Hall, !length_app. lia.
Qed.

(** * The QA report *)

(** X21. The histogram of an accepted dashboard summary has the keys of
    the dict it was given, and every integer count of that dict under its
    key. *)
Theorem tiles_by_type_is_kept (d : kwargs) (x : DashboardSummary.t)
  (t : gmap string PyVal) :
  init d = Ok x ->
  d !! "tiles_by_type" = Some (PyDict t) ->
  dom (DashboardSummary.tiles_by_type x) = dom t
  /\ forall k z, t !! k = Some (PyInt z) ->
       DashboardSummary.tiles_by_type x !! k = Some z.
Proof.
  intros H Hd. unfold model_validate in H.
  cbn [init DashboardSummary.base_model] in H. repeat inv_bind H. injection H as <-.
  cbn.
  match goal with
  | Hf : defaulted (as_dict _) _ _ d = Ok _ |- _ =>
      rewrite (defaulted_Some _ _ _ _ _ Hd) in Hf;
      apply as_dict_Ok in Hf as [Hall Hlookup]
  end.
  split.
  - apply set_eq. intros k. rewrite !elem_of_dom, Hlookup.
    destruct (t !! k) as [v|] eqn:Hk; cbn; [|by split; intros [? ?]].
    specialize (Hall k v Hk). destruct (as_int v); [|discriminate Hall].
    cbn. split; by eexists.
  - intros k z Hk. by rewrite Hlookup, Hk.
Qed.

(** X22. A dashboard summary whose histogram holds [None], a list or a dict
    as the count of some tile type is not constructed. *)
Theorem tiles_by_type_holds_counts_only (d : kwargs) (t : gmap string PyVal)
  (k : string) (v : PyVal) :
  d !! "tiles_by_type" = Some (PyDict t) ->
  t !! k = Some v ->
  match v with PyNone | PyList _ | PyDict _ => True | _ => False end ->
  is_ok (init (A := DashboardSummary.t) d) = false.
Proof.
  intros Hd Hk Hv. unfold_reports.
  rewrite (defaulted_Some _ _ _ _ _ Hd).
  rewrite (as_dict_fails as_int t k v Hk).
  - first_failure.
  - by destruct v.
Qed.

(** X23. A QA report constructed without reasons, summary or notes has no
    reason, no dashboard summary and no notes; a dashboard summary
    constructed without a histogram has the empty one. *)
Theorem qa_report_defaults (d : kwargs) :
  (forall x : QAReport.t, init d = Ok x ->
     (d !! "reasons" = None -> QAReport.reasons x = [])
     /\ (d !! "dashboard_summary" = None -> QAReport.dashboard_summary x = None)
     /\ (d !! "notes" = None -> QAReport.notes x = None))
  /\ (forall x : DashboardSummary.t, init d = Ok x ->
        d !! "tiles_by_type" = None -> DashboardSummary.tiles_by_type x = ∅).
Proof.
  split; intros x H; unfold model_validate in H;
    cbn [init DashboardSummary.base_model QAReport.base_model] in H;
    repeat inv_bind H; injection H as <-; cbn.
  - split; [|split]; intros Hk;
      [by default_of "reasons"|by default_of "dashboard_summary"|by default_of "notes"].
  - intros Hk. by default_of "tiles_by_type".
Qed.

(** * More on the entrypoint *)

Section entrypoint_runs.
Context {G : Type}.
Variable parse_twb_xml_to_raw_spec : list Byte.byte -> M G kwargs.
Variable raw_spec_to_semantic_model : kwargs -> M G loc.

(** A run that returns went through the reader and the assembler. *)
Lemma parse_Ok_inv b st semantic_model st3 :
  parse_twb_to_semantic_model parse_twb_xml_to_raw_spec
    raw_spec_to_semantic_model b st = (Ok semantic_model, st3) ->
  exists raw_spec st1 st2 m,
    parse_twb_xml_to_raw_spec b st = (Ok raw_spec, st1)
    /\ raw_spec_to_semantic_model raw_spec st1 = (Ok semantic_model, st2)
    /\ heap st2 !! semantic_model = Some m
    /\ st3 = match TableauSemanticModel.workbook m with
             | None =>
                 mkState
                   (<[semantic_model := with_workbook (Some placeholder_workbook) m]>
                      (heap st2))
                   (globals st2)
             | Some _ => st2
             end.
Proof.
  intros Hrun.
  destruct (parse_twb_xml_to_raw_spec b st) as [[raw_spec|e] st1] eqn:Hr;
    [|unfold parse_twb_to_semantic_model, bind in Hrun; by rewrite Hr in Hrun].
  destruct (raw_spec_to_semantic_model raw_spec st1) as [[obj|e] st2] eqn:Ha;
    [|unfold parse_twb_to_semantic_model, bind in Hrun; by rewrite Hr, Ha in Hrun].
  destruct (heap st2 !! obj) as [m|] eqn:Hm.
  - rewrite (parse_after_assembly _ _ _ _ _ _ _ _ _ Hr Ha Hm) in Hrun.
    injection Hrun as <- <-. by exists raw_spec, st1, st2, m.
  - unfold parse_twb_to_semantic_model, bind, get_workbook in Hrun.
    by rewrite Hr, Ha, Hm in Hrun.
Qed.

(** X1. Whenever [parse_twb_to_semantic_model] returns, the instance it
    returns has a workbook: its [workbook] is not [None]. *)
Theorem returned_instance_has_workbook b st semantic_model st3 :
  parse_twb_to_semantic_model parse_twb_xml_to_raw_spec
    raw_spec_to_semantic_model b st = (Ok semantic_model, st3) ->
  exists m,
    heap st3 !! semantic_model = Some m
    /\ is_Some (TableauSemanticModel.workbook m).
Proof.
  intros Hrun. apply parse_Ok_inv in Hrun as (raw & st1 & st2 & m & _ & _ & Hm & ->).
  destruct (TableauSemanticModel.workbook m) as [w|] eqn:Hw.
  - exists m. by rewrite Hw.
  - eexists. cbn. rewrite lookup_insert_eq. split; [done|]. by eexists.
Qed.

(** X2. A run of [parse_twb_to_semantic_model] that returns has called the
    reader and the assembler, returns the assembler's instance, and leaves
    the state as the assembler left it but for the workbook of that
    instance: its schema version, datasources, calculations and sheets,
    every other instance, the set of instances and the rest of the state
    are unchanged. *)
Theorem parse_changes_the_workbook_only b st semantic_model st3 :
  parse_twb_to_semantic_model parse_twb_xml_to_raw_spec
    raw_spec_to_semantic_model b st = (Ok semantic_model, st3) ->
  exists raw_spec st1 st2 m m',
    parse_twb_xml_to_raw_spec b st = (Ok raw_spec, st1)
    /\ raw_spec_to_semantic_model raw_spec st1 = (Ok semantic_model, st2)
    /\ heap st2 !! semantic_model = Some m
    /\ heap st3 !! semantic_model = Some m'
    /\ TableauSemanticModel.schema_version m' = TableauSemanticModel.schema_version m
    /\ TableauSemanticModel.datasources m' = TableauSemanticModel.datasources m
    /\ TableauSemanticModel.calculations m' = TableauSemanticModel.calculations m
    /\ TableauSemanticModel.sheets m' = TableauSemanticModel.sheets m
    /\ (forall l, l <> semantic_model -> heap st3 !! l = heap st2 !! l)
    /\ dom (heap st3) = dom (heap st2)
    /\ globals st3 = globals st2.
Proof.
  intros Hrun. apply parse_Ok_inv in Hrun as (raw & st1 & st2 & m & Hr & Ha & Hm & ->).
  exists raw, st1, st2, m.
  destruct (TableauSemanticModel.workbook m) as [w|] eqn:Hw.
  - exists m. repeat split; done.
  - eexists. cbn. rewrite lookup_insert_eq. repeat split; try done.
    + intros l Hl. by rewrite lookup_insert_ne.
    + rewrite dom_insert_L. apply elem_of_dom_2 in Hm.
      by apply subseteq_union_1_L, singleton_subseteq_l.
Qed.

(** X3. With an assembler that returns instances that exist,
    [parse_twb_to_semantic_model] raises exactly when the reader or the
    assembler raises, with their error and in their state: an error of the
    reader keeps the assembler from being called, and the entrypoint raises
    nothing of its own (the construction of the placeholder cannot fail). *)
Theorem parse_raises_what_the_adapters_raise b st e st3 :
  (forall raw_spec st1 obj st2,
     raw_spec_to_semantic_model raw_spec st1 = (Ok obj, st2) ->
     is_Some (heap st2 !! obj)) ->
  parse_twb_to_semantic_model parse_twb_xml_to_raw_spec
    raw_spec_to_semantic_model b st = (Raise e, st3)
  <-> (parse_twb_xml_to_raw_spec b st = (Raise e, st3)
       \/ exists raw_spec st1,
            parse_twb_xml_to_raw_spec b st = (Ok raw_spec, st1)
            /\ raw_spec_to_semantic_model raw_spec st1 = (Raise e, st3)).
Proof.
  intros Hlive. split.
  - intros Hrun.
    destruct (parse_twb_xml_to_raw_spec b st) as [[raw_spec|e'] st1] eqn:Hr.
    + right. exists raw_spec, st1. split; [done|].
      destruct (raw_spec_to_semantic_model raw_spec st1) as [[obj|e'] st2] eqn:Ha.
      * destruct (Hlive _ _ _ _ Ha) as [m Hm].
        rewrite (parse_after_assembly _ _ _ _ _ _ _ _ _ Hr Ha Hm) in Hrun.
        discriminate Hrun.
      * unfold parse_twb_to_semantic_model, bind in Hrun. rewrite Hr, Ha in Hrun.
        by injection Hrun as -> ->.
    + left. unfold parse_twb_to_semantic_model, bind in Hrun. rewrite Hr in Hrun.
      by injection Hrun as -> ->.
  - unfold parse_twb_to_semantic_model, bind.
    intros [Hr|(raw_spec & st1 & Hr & Ha)]; [by rewrite Hr|by rewrite Hr, Ha].
Qed.
End entrypoint_runs.

(** * Runs on the sample inputs *)

Lemma sample_assembler_live {G} (raw_spec : kwargs) (st1 : PyState G) obj st2 :
  sample_assembler raw_spec st1 = (Ok obj, st2) -> is_Some (heap st2 !! obj).
Proof.
  unfold sample_assembler.
  assert (Halloc : forall m, alloc m st1 = (Ok obj, st2) -> is_Some (heap st2 !! obj)).
  { unfold alloc. intros m [= <- <-]. cbn. rewrite lookup_insert_eq. by eexists. }
  destruct (raw_spec !! "workbook"); [|apply Halloc].
  unfold bind, lift. destruct (init raw_spec); [apply Halloc|done].
Qed.

Lemma returned_instance_has_workbook_witness :
  parse_twb_to_semantic_model sample_reader sample_assembler [Byte.x00] empty_state
  = (Ok 0, mkState {[0 := sample_model (Some placeholder_workbook)]} tt)
  /\ exists m,
       heap (mkState {[0 := sample_model (Some placeholder_workbook)]} tt) !! 0 = Some m
       /\ is_Some (TableauSemanticModel.workbook m).
Proof.
  split; [vm_compute; reflexivity|].
  apply (returned_instance_has_workbook sample_reader sample_assembler
           [Byte.x00] empty_state 0).
  vm_compute; reflexivity.
Defined.

Lemma parse_changes_the_workbook_only_witness :
  parse_twb_to_semantic_model sample_reader sample_assembler [Byte.x00] later_state
  = (Ok 1,
     mkState (<[1 := sample_model (Some placeholder_workbook)]> {[0 := dangling_model]})
       tt)
  /\ exists raw_spec st1 st2 m m',
       sample_reader [Byte.x00] later_state = (Ok raw_spec, st1)
       /\ sample_assembler raw_spec st1 = (Ok 1, st2)
       /\ heap st2 !! 1 = Some m
       /\ heap (mkState (<[1 := sample_model (Some placeholder_workbook)]>
                          {[0 := dangling_model]}) tt) !! 1 = Some m'
       /\ TableauSemanticModel.schema_version m' = TableauSemanticModel.schema_version m
       /\ TableauSemanticModel.datasources m' = TableauSemanticModel.datasources m
       /\ TableauSemanticModel.calculations m' = TableauSemanticModel.calculations m
       /\ TableauSemanticModel.sheets m' = TableauSemanticModel.sheets m
       /\ (forall l, l <> 1 ->
             heap (mkState (<[1 := sample_model (Some placeholder_workbook)]>
                              {[0 := dangling_model]}) tt) !! l = heap st2 !! l)
       /\ dom (heap (mkState (<[1 := sample_model (Some placeholder_workbook)]>
                               {[0 := dangling_model]}) tt)) = dom (heap st2)
       /\ globals (mkState (<[1 := sample_model (Some placeholder_workbook)]>
                              {[0 := dangling_model]}) tt) = globals st2.
Proof.
  split; [vm_compute; reflexivity|].
  apply (parse_changes_the_workbook_only sample_reader sample_assembler
           [Byte.x00] later_state 1).
  vm_compute; reflexivity.
Defined.

Lemma parse_raises_what_the_adapters_raise_witness :
  parse_twb_to_semantic_model sample_reader sample_assembler [] empty_state
  = (Raise (AdapterError "MalformedDocumentError"), empty_state)
  <-> (sample_reader [] empty_state
       = (Raise (AdapterError "MalformedDocumentError"), empty_state)
       \/ exists raw_spec st1,
            sample_reader [] empty_state = (Ok raw_spec, st1)
            /\ sample_assembler raw_spec st1
               = (Raise (AdapterError "MalformedDocumentError"), empty_state)).
Proof.
  apply (parse_raises_what_the_adapters_raise sample_reader sample_assembler
           [] empty_state (AdapterError "MalformedDocumentError") empty_state).
  intros raw_spec st1 obj st2. apply sample_assembler_live.
Defined.

Lemma only_declared_keys_matter_witness :
  Forall (fun k => <["color" := PyStr "red"]> (field_kwargs []) !! k
                   = field_kwargs [] !! k)
    ["id"; "name"; "caption"; "table_id"; "role"; "datatype"; "aggregation";
     "source"; "column_name"; "calculation_id"; "is_hidden"; "tags"]
  /\ init (A := TableauField.t) (<["color" := PyStr "red"]> (field_kwargs []))
     = init (field_kwargs []).
Proof.
  assert (Hkeys :
    Forall (fun k => <["color" := PyStr "red"]> (field_kwargs []) !! k
                     = field_kwargs [] !! k)
      ["id"; "name"; "caption"; "table_id"; "role"; "datatype"; "aggregation";
       "source"; "column_name"; "calculation_id"; "is_hidden"; "tags"])
    by (repeat constructor).
  split; [exact Hkeys|].
  exact (proj2 (proj2 (proj2
           (only_declared_keys_matter (<["color" := PyStr "red"]> (field_kwargs []))
              (field_kwargs [])))) Hkeys).
Defined.

Lemma missing_required_key_fails_witness :
  delete "condition" (join_kwargs []) !! "condition" = None
  /\ is_ok (init (A := TableauJoin.t) (delete "condition" (join_kwargs []))) = false.
Proof.
  assert (Hk : delete "condition" (join_kwargs []) !! "condition" = None)
    by reflexivity.
  split; [exact Hk|].
  apply (proj1 (missing_required_key_fails (delete "condition" (join_kwargs [])))).
  do 3 apply Exists_cons_tl. by apply Exists_cons_hd.
Defined.

Lemma missing_required_key_fails_leaf_witness :
  delete "name" (field_kwargs []) !! "name" = None
  /\ is_ok (init (A := TableauField.t) (delete "name" (field_kwargs []))) = false.
Proof.
  assert (Hk : delete "name" (field_kwargs []) !! "name" = None) by reflexivity.
  split; [exact Hk|].
  apply (proj1 (proj2 (proj2
           (missing_required_key_fails_leaf (delete "name" (field_kwargs [])))))).
  apply Exists_cons_tl. by apply Exists_cons_hd.
Defined.

Lemma missing_required_key_fails_output_witness :
  delete "view_files" project_kwargs !! "view_files" = None
  /\ is_ok (init (A := LookMLProject.t) (delete "view_files" project_kwargs)) = false.
Proof.
  assert (Hk : delete "view_files" project_kwargs !! "view_files" = None)
    by reflexivity.
  split; [exact Hk|].
  apply (proj1 (proj2
           (missing_required_key_fails_output (delete "view_files" project_kwargs)))).
  apply Exists_cons_tl. by apply Exists_cons_hd.
Defined.

Lemma all_defaults_without_arguments_witness :
  init ∅ = Ok (TableauConnection.mk ConnectionType.unknown None None None None None)
  /\ init ∅ = Ok (TableauSheetVisualization.mk ChartType.unknown None [] [] None None).
Proof.
  destruct (all_defaults_without_arguments ∅) as [Hc Hv].
  split; [apply Hc|apply Hv]; repeat constructor.
Defined.

Lemma container_defaults_witness :
  init sample_raw_spec = Ok (sample_model (Some (TableauWorkbook.mk "wb1" "Sales" None)))
  /\ sample_raw_spec !! "datasources" = None
  /\ TableauSemanticModel.datasources
       (sample_model (Some (TableauWorkbook.mk "wb1" "Sales" None))) = [].
Proof.
  assert (Hinit : init sample_raw_spec
                  = Ok (sample_model (Some (TableauWorkbook.mk "wb1" "Sales" None))))
    by (vm_compute; reflexivity).
  assert (Hk : sample_raw_spec !! "datasources" = None) by reflexivity.
  split; [exact Hinit|]. split; [exact Hk|].
  exact (proj1 (proj2 (proj1 (container_defaults sample_raw_spec) _ Hinit)) Hk).
Defined.

Lemma field_none_arguments_witness :
  init (A := TableauField.t) (<["caption" := PyNone]> (field_kwargs []))
  = init (delete "caption" (field_kwargs []))
  /\ field_kwargs [("tags", PyNone)] !! "tags" = Some PyNone
  /\ is_ok (init (A := TableauField.t) (field_kwargs [("tags", PyNone)])) = false.
Proof.
  split; [|split; [reflexivity|]].
  - apply (proj1 (field_none_arguments (field_kwargs []) "caption")). cbn. tauto.
  - apply (proj2 (field_none_arguments (field_kwargs [("tags", PyNone)]) "tags"));
      [cbn; tauto|reflexivity].
Defined.

Lemma model_lists_are_validated_in_order_witness :
  init dangling_kwargs = Ok dangling_model
  /\ exists l,
       dangling_kwargs !! "datasources" = Some (PyList l)
       /\ Forall2 (fun v x => model_validate v = Ok x) l
            (TableauSemanticModel.datasources dangling_model).
Proof.
  assert (Hinit : init dangling_kwargs = Ok dangling_model) by (vm_compute; reflexivity).
  split; [exact Hinit|]. eexists. split; [reflexivity|].
  apply (proj1 (model_lists_are_validated_in_order dangling_kwargs dangling_model Hinit)).
  reflexivity.
Defined.

Lemma invalid_item_fails_the_model_witness :
  In PyNone [py_dict []; PyNone]
  /\ is_ok (model_validate (A := TableauSheet.t) PyNone) = false
  /\ is_ok (init (A := TableauSemanticModel.t)
              (<["sheets" := PyList [py_dict []; PyNone]]> sample_raw_spec)) = false.
Proof.
  assert (Hin : In PyNone [py_dict []; PyNone]) by (right; left; reflexivity).
  split; [exact Hin|]. split; [reflexivity|].
  apply (proj2 (proj2 (invalid_item_fails_the_model
           (<["sheets" := PyList [py_dict []; PyNone]]> sample_raw_spec)
           [py_dict []; PyNone] PyNone Hin))); reflexivity.
Defined.

Lemma other_axes_are_closed_witness :
  ~ In "outer" ["inner"; "left"; "right"; "full"; "unknown"]
  /\ is_ok (init (A := TableauJoin.t) (<["join_type" := PyStr "outer"]> (join_kwargs [])))
     = false.
Proof.
  assert (Hs : ~ In "outer" ["inner"; "left"; "right"; "full"; "unknown"])
    by (intros [H|[H|[H|[H|[H|[]]]]]]; discriminate H).
  split; [exact Hs|].
  exact (proj1 (other_axes_are_closed (join_kwargs []) "outer") Hs).
Defined.

Lemma project_file_count_witness :
  init project_kwargs = Ok sample_project
  /\ length (LookMLProject.all_files sample_project) = 1 + 0 + 2.
Proof.
  assert (Hinit : init project_kwargs = Ok sample_project) by (vm_compute; reflexivity).
  split; [exact Hinit|].
  exact (proj1 (project_file_count project_kwargs sample_project _ _ _ Hinit
                  eq_refl eq_refl eq_refl)).
Defined.

Lemma tiles_by_type_is_kept_witness :
  init (summary_kwargs (PyDict {["bar" := PyInt 2; "table" := PyInt 1]}))
  = Ok (DashboardSummary.mk 3 1 3 {["bar" := 2%Z; "table" := 1%Z]})
  /\ dom ({["bar" := 2%Z; "table" := 1%Z]} : gmap string Z)
     = dom ({["bar" := PyInt 2; "table" := PyInt 1]} : gmap string PyVal)
  /\ forall k z,
       ({["bar" := PyInt 2; "table" := PyInt 1]} : gmap string PyVal) !! k
       = Some (PyInt z) ->
       ({["bar" := 2%Z; "table" := 1%Z]} : gmap string Z) !! k = Some z.
Proof.
  assert (Hinit :
    init (summary_kwargs (PyDict {["bar" := PyInt 2; "table" := PyInt 1]}))
    = Ok (DashboardSummary.mk 3 1 3 {["bar" := 2%Z; "table" := 1%Z]}))
    by (vm_compute; reflexivity).
  split; [exact Hinit|].
  exact (tiles_by_type_is_kept _ _ _ Hinit eq_refl).
Defined.

Lemma tiles_by_type_holds_counts_only_witness :
  is_ok (init (A := DashboardSummary.t)
           (summary_kwargs (PyDict {["bar" := PyInt 2; "table" := PyNone]}))) = false.
Proof.
  exact (tiles_by_type_holds_counts_only
           (summary_kwargs (PyDict {["bar" := PyInt 2; "table" := PyNone]}))
           {["bar" := PyInt 2; "table" := PyNone]} "table" PyNone eq_refl eq_refl I).
Defined.

Lemma qa_report_defaults_witness :
  init {["manual_intervention_required" := PyBool true]}
  = Ok (QAReport.mk true [] None None)
  /\ QAReport.reasons (QAReport.mk true [] None None) = [].
Proof.
  assert (Hinit : init {["manual_intervention_required" := PyBool true]}
                  = Ok (QAReport.mk true [] None None)) by (vm_compute; reflexivity).
  split; [exact Hinit|].
  exact (proj1 (proj1 (qa_report_defaults
                         {["manual_intervention_required" := PyBool true]})
                  _ Hinit) eq_refl).
Defined.
